(** * KokoroQuest form components: student modal and thematic-path editor

  A shallow embedding of the event handlers of
  [src/components/teacher/StudentManagementModal.tsx] and
  [src/components/admin/path/PathEditor.tsx].

  React state is a record; every handler is a function from the
  committed state to the next one.  The injected callbacks ([onSave],
  [onClose], [onCancel]) are recorded in a chronological call log, and an
  [await] is a suspended continuation that a later settlement event
  resumes.  JavaScript strings are sequences of UTF-16 code units and
  JavaScript numbers are IEEE 754 binary64 values ([spec_float]). *)

From Stdlib Require Import ZArith NArith List Bool Ascii String SpecFloat Lia.
From stdpp Require Import base tactics list strings pretty.

Local Open Scope N_scope.

(** ** JavaScript values *)

Module JS.

(** A string is its sequence of UTF-16 code units. *)
Definition jsstring := list N.

Fixpoint str (s : string) : jsstring :=
  match s with
  | EmptyString => []
  | String a s' => N_of_ascii a :: str s'
  end.

(** ECMAScript WhiteSpace and LineTerminator code points, the ones
    [String.prototype.trim] strips. *)
Definition isWhiteSpace (c : N) : bool :=
  (c =? 0x09) || (c =? 0x0A) || (c =? 0x0B) || (c =? 0x0C) || (c =? 0x0D)
  || (c =? 0x20) || (c =? 0xA0) || (c =? 0x1680)
  || ((0x2000 <=? c) && (c <=? 0x200A))
  || (c =? 0x2028) || (c =? 0x2029) || (c =? 0x202F) || (c =? 0x205F)
  || (c =? 0x3000) || (c =? 0xFEFF).

Fixpoint trimStart (s : jsstring) : jsstring :=
  match s with
  | [] => []
  | c :: s' => if isWhiteSpace c then trimStart s' else s
  end.

Definition trimEnd (s : jsstring) : jsstring := rev (trimStart (rev s)).

Definition trim (s : jsstring) : jsstring := trimEnd (trimStart s).

(** ToBoolean on a string: only the empty string is falsy. *)
Definition truthy (s : jsstring) : bool :=
  match s with [] => false | _ :: _ => true end.

Fixpoint startsWith (s p : jsstring) : bool :=
  match p, s with
  | [], _ => true
  | _ :: _, [] => false
  | a :: p', b :: s' => (a =? b) && startsWith s' p'
  end.

(** [s.includes(p)]: [p] occurs at some offset of [s]. *)
Fixpoint includes (s p : jsstring) : bool :=
  startsWith s p || match s with [] => false | _ :: s' => includes s' p end.

(** A value caught by [catch (err)]: either an instance of [Error], which
    carries a [message], or anything else. *)
Inductive thrown :=
| ErrorInstance (message : jsstring)
| OtherValue.

(** How the promise returned by an injected async function settles. *)
Inductive settlement :=
| Resolved
| Rejected (err : thrown).

(** [err instanceof Error ? err.message : fallback] *)
Definition messageOr (fallback : jsstring) (err : thrown) : jsstring :=
  match err with
  | ErrorInstance m => m
  | OtherValue => fallback
  end.

(** Numbers are binary64 floats. *)
Definition number := spec_float.
Definition prec : Z := 53.
Definition emax : Z := 1024.

Definition num (z : Z) : number := binary_normalize prec emax z 0 false.
Definition sub (a b : number) : number := SFsub prec emax a b.
Definition div (a b : number) : number := SFdiv prec emax a b.
Definition mul (a b : number) : number := SFmul prec emax a b.

Definition isNaN (a : number) : bool :=
  match a with S754_nan => true | _ => false end.

(** [Number.isFinite]: neither NaN nor an infinity. *)
Definition isFinite (a : number) : bool :=
  match a with S754_zero _ | S754_finite _ _ _ => true | _ => false end.

(** [Math.min(...args)] as ECMAScript specifies it: start from +Infinity;
    a NaN argument makes the result NaN; -0 is below +0. *)
Definition min_step (lowest : number) (n : number) : number :=
  match lowest, n with
  | S754_nan, _ | _, S754_nan => S754_nan
  | S754_zero false, S754_zero true => n
  | _, _ => if SFltb n lowest then n else lowest
  end.

Definition Math_min (args : list number) : number :=
  fold_left min_step args (S754_infinity false).

(** [Math.max(...args)]: start from -Infinity; +0 is above -0. *)
Definition max_step (highest : number) (n : number) : number :=
  match highest, n with
  | S754_nan, _ | _, S754_nan => S754_nan
  | S754_zero true, S754_zero false => n
  | _, _ => if SFltb highest n then n else highest
  end.

Definition Math_max (args : list number) : number :=
  fold_left max_step args (S754_infinity true).

(** [Date.now().toString()]: the decimal rendering of an integral
    millisecond count. *)
Definition Date_now_toString (now : Z) : jsstring := str (pretty now).

End JS.
Import JS.

(** ** StudentManagementModal.tsx *)

Module StudentManagementModal.

(** The draft held by [useState({name, email, parentEmail})]. *)
Record FormData := {
  name : jsstring;
  email : jsstring;
  parentEmail : jsstring
}.

(** The argument of [onSave]: [{...formData, classId}]. *)
Record StudentData := {
  sd_name : jsstring;
  sd_email : jsstring;
  sd_parentEmail : jsstring;
  sd_classId : jsstring
}.

(** Invocations of the injected callbacks. *)
Inductive Call :=
| onSave (studentData : StudentData)
| onClose.

Record State := {
  formData : FormData;
  error : option jsstring;
  isSubmitting : bool
}.

(** The component together with what it has done to its environment:
    [calls] is the chronological log of callback invocations, [awaiting]
    counts the [handleSubmit] activations suspended at [await onSave]. *)
Record World := {
  state : State;
  calls : list Call;
  awaiting : nat
}.

Definition setFormData (f : FormData -> FormData) (w : World) : World :=
  {| state := {| formData := f (formData (state w));
                 error := error (state w);
                 isSubmitting := isSubmitting (state w) |};
     calls := calls w; awaiting := awaiting w |}.

Definition setError (e : option jsstring) (w : World) : World :=
  {| state := {| formData := formData (state w);
                 error := e;
                 isSubmitting := isSubmitting (state w) |};
     calls := calls w; awaiting := awaiting w |}.

Definition setIsSubmitting (b : bool) (w : World) : World :=
  {| state := {| formData := formData (state w);
                 error := error (state w);
                 isSubmitting := b |};
     calls := calls w; awaiting := awaiting w |}.

Definition invoke (c : Call) (w : World) : World :=
  {| state := state w; calls := calls w ++ [c]; awaiting := awaiting w |}.

Definition suspend (w : World) : World :=
  {| state := state w; calls := calls w; awaiting := S (awaiting w) |}.

Definition resume (w : World) : World :=
  {| state := state w; calls := calls w; awaiting := Nat.pred (awaiting w) |}.

(** [useState] initial values; [student?.name || ''] and so on. *)
Definition init (student : option FormData) : World :=
  {| state := {| formData := match student with
                             | Some s => s
                             | None => {| name := []; email := []; parentEmail := [] |}
                             end;
                 error := None;
                 isSubmitting := false |};
     calls := []; awaiting := 0%nat |}.

Section Component.

(** The [classId] prop. *)
Variable classId : jsstring.

(** [handleSubmit], lines 31-56: from the submit event up to the
    [await]. *)
Definition handleSubmit (w : World) : World :=
  let fd := formData (state w) in
  if negb (truthy (trim (name fd))) then
    setError (Some (str "Student name is required")) w
  else if truthy (email fd) && negb (includes (email fd) (str "@")) then
    setError (Some (str "Please enter a valid email address")) w
  else if truthy (parentEmail fd) && negb (includes (parentEmail fd) (str "@")) then
    setError (Some (str "Please enter a valid parent email address")) w
  else
    suspend
      (invoke (onSave {| sd_name := name fd;
                         sd_email := email fd;
                         sd_parentEmail := parentEmail fd;
                         sd_classId := classId |})
         (setError None (setIsSubmitting true w))).

(** [handleSubmit], lines 57-62: what runs once the awaited promise has
    settled. *)
Definition handleSubmit_settled (r : settlement) (w : World) : World :=
  match r with
  | Resolved =>
      setIsSubmitting false (invoke onClose (resume w))
  | Rejected err =>
      setIsSubmitting false
        (setError (Some (messageOr (str "Failed to save student") err)) (resume w))
  end.

(** What can happen to the rendered modal. *)
Inductive Event :=
| ChangeName (value : jsstring)
| ChangeEmail (value : jsstring)
| ChangeParentEmail (value : jsstring)
| SubmitClick
| CloseClick
| SaveSettled (r : settlement).

(** The submit button carries [disabled={isSubmitting}]. *)
Definition submitDisabled (w : World) : bool := isSubmitting (state w).

Definition step (w : World) (ev : Event) : World :=
  match ev with
  | ChangeName v =>
      setFormData (fun prev => {| name := v; email := email prev;
                                  parentEmail := parentEmail prev |}) w
  | ChangeEmail v =>
      setFormData (fun prev => {| name := name prev; email := v;
                                  parentEmail := parentEmail prev |}) w
  | ChangeParentEmail v =>
      setFormData (fun prev => {| name := name prev; email := email prev;
                                  parentEmail := v |}) w
  | SubmitClick => if submitDisabled w then w else handleSubmit w
  | CloseClick => invoke onClose w
  | SaveSettled r =>
      match awaiting w with
      | O => w
      | S _ => handleSubmit_settled r w
      end
  end.

Definition run (w : World) (evs : list Event) : World := fold_left step evs w.

End Component.

(** [{error && <div ...>{error}</div>}], lines 102-106: the banner is
    rendered for a non-empty message only. *)
Definition errorBanner (s : State) : option jsstring :=
  match error s with
  | Some message => if truthy message then Some message else None
  | None => None
  end.






End StudentManagementModal.

(** ** PathEditor.tsx *)

Module PathEditor.

Record Position := {
  x : number;
  y : number
}.

Inductive Status := locked | unlocked | completed.

(** [Milestone] is declared in [types/thematicPath], which is not part of
    the sources at hand; these are the fields [handleAddMilestone] writes. *)
Record Milestone := {
  id : jsstring;
  position : Position;
  activityId : jsstring;
  status : Status
}.

Record FormData := {
  name : jsstring;
  theme : jsstring;
  backgroundImage : jsstring;
  milestones : list Milestone
}.

(** Invocations of the injected callbacks. *)
Inductive Call :=
| onSave (pathData : FormData)
| onCancel.

Record State := {
  formData : FormData;
  selectedMilestone : option Milestone;
  isSubmitting : bool;
  error : option jsstring;
  isDragging : bool
}.

(** What [canvasRef.current.getBoundingClientRect()] returns. *)
Record DOMRect := {
  left : number;
  top : number;
  width : number;
  height : number
}.

Record MouseEvent := {
  clientX : number;
  clientY : number
}.

Global Instance jsstring_eq_dec : EqDecision jsstring := _.

Definition setFormData (f : FormData -> FormData) (s : State) : State :=
  {| formData := f (formData s);
     selectedMilestone := selectedMilestone s;
     isSubmitting := isSubmitting s;
     error := error s;
     isDragging := isDragging s |}.

Definition setSelectedMilestone (m : option Milestone) (s : State) : State :=
  {| formData := formData s;
     selectedMilestone := m;
     isSubmitting := isSubmitting s;
     error := error s;
     isDragging := isDragging s |}.

Definition setIsSubmitting (b : bool) (s : State) : State :=
  {| formData := formData s;
     selectedMilestone := selectedMilestone s;
     isSubmitting := b;
     error := error s;
     isDragging := isDragging s |}.

Definition setError (e : option jsstring) (s : State) : State :=
  {| formData := formData s;
     selectedMilestone := selectedMilestone s;
     isSubmitting := isSubmitting s;
     error := e;
     isDragging := isDragging s |}.

Definition setIsDragging (b : bool) (s : State) : State :=
  {| formData := formData s;
     selectedMilestone := selectedMilestone s;
     isSubmitting := isSubmitting s;
     error := error s;
     isDragging := b |}.

(** [{...prev, milestones: ms}] *)
Definition withMilestones (ms : list Milestone) (prev : FormData) : FormData :=
  {| name := name prev; theme := theme prev;
     backgroundImage := backgroundImage prev; milestones := ms |}.

(** [{...m, position: p}] *)
Definition withPosition (p : Position) (m : Milestone) : Milestone :=
  {| id := id m; position := p; activityId := activityId m; status := status m |}.

(** [handleImageUpload]: [file] is [e.target.files?.[0]] already turned into
    its object URL, [None] when no file was chosen. *)
Definition handleImageUpload (file : option jsstring) (s : State) : State :=
  match file with
  | None => s
  | Some imageUrl =>
      setFormData (fun prev => {| name := name prev; theme := theme prev;
                                  backgroundImage := imageUrl;
                                  milestones := milestones prev |}) s
  end.

(** [handleAddMilestone]; [now] is the value of [Date.now()]. *)
Definition newMilestone (now : Z) : Milestone :=
  {| id := Date_now_toString now;
     position := {| x := num 50; y := num 50 |};
     activityId := [];
     status := locked |}.

Definition handleAddMilestone (now : Z) (s : State) : State :=
  setFormData (fun prev => withMilestones (milestones prev ++ [newMilestone now]) prev) s.

Definition handleMilestoneMouseDown (milestone : Milestone) (s : State) : State :=
  setIsDragging true (setSelectedMilestone (Some milestone) s).

(** The clamped percentage of one coordinate, lines 57-62. *)
Definition percent (client origin extent : number) : number :=
  mul (div (sub client origin) extent) (num 100).

Definition clamp (v : number) : number :=
  Math_max [num 0; Math_min [num 100; v]].

(** [handleMouseMove]; [canvas] is [canvasRef.current], seen through its
    bounding rectangle. *)
Definition handleMouseMove (canvas : option DOMRect) (e : MouseEvent) (s : State) : State :=
  match isDragging s, selectedMilestone s, canvas with
  | true, Some selected, Some rect =>
      let clampedX := clamp (percent (clientX e) (left rect) (width rect)) in
      let clampedY := clamp (percent (clientY e) (top rect) (height rect)) in
      setFormData (fun prev =>
        withMilestones
          ((fun m => if decide (id m = id selected)
                     then withPosition {| x := clampedX; y := clampedY |} m
                     else m) <$> milestones prev)
          prev) s
  | _, _, _ => s
  end.

Definition handleMouseUp (s : State) : State := setIsDragging false s.

(** The click handler of the Remove Selected button, which is rendered only
    while a milestone is selected. *)
Definition removeSelected (s : State) : State :=
  match selectedMilestone s with
  | None => s
  | Some selected =>
      setSelectedMilestone None
        (setFormData (fun prev =>
           withMilestones (filter (fun m => id m <> id selected) (milestones prev)) prev) s)
  end.

(** The component together with what it has done to its environment. *)
Record World := {
  state : State;
  calls : list Call;
  awaiting : nat
}.

Definition onState (f : State -> State) (w : World) : World :=
  {| state := f (state w); calls := calls w; awaiting := awaiting w |}.

Definition invoke (c : Call) (w : World) : World :=
  {| state := state w; calls := calls w ++ [c]; awaiting := awaiting w |}.

Definition suspend (w : World) : World :=
  {| state := state w; calls := calls w; awaiting := S (awaiting w) |}.

Definition resume (w : World) : World :=
  {| state := state w; calls := calls w; awaiting := Nat.pred (awaiting w) |}.

(** [useState] initial values: [path?.name || ''] and so on. *)
Definition init (path : option FormData) : World :=
  {| state := {| formData := match path with
                             | Some p => p
                             | None => {| name := []; theme := [];
                                          backgroundImage := []; milestones := [] |}
                             end;
                 selectedMilestone := None;
                 isSubmitting := false;
                 error := None;
                 isDragging := false |};
     calls := []; awaiting := 0%nat |}.

(** [handleSubmit], lines 83-95: from the submit event up to the [await]. *)
Definition handleSubmit (w : World) : World :=
  let fd := formData (state w) in
  if negb (truthy (trim (name fd))) || negb (truthy (trim (theme fd))) then
    onState (setError (Some (str "Please fill in all required fields"))) w
  else
    suspend (invoke (onSave fd) (onState (setError None) (onState (setIsSubmitting true) w))).

(** [handleSubmit], lines 96-100: what runs once the awaited promise has
    settled. *)
Definition handleSubmit_settled (r : settlement) (w : World) : World :=
  match r with
  | Resolved => onState (setIsSubmitting false) (resume w)
  | Rejected err =>
      onState (setIsSubmitting false)
        (onState (setError (Some (messageOr (str "Failed to save path") err))) (resume w))
  end.

(** What can happen to the rendered editor. *)
Inductive Event :=
| ChangeName (value : jsstring)
| ChangeTheme (value : jsstring)
| ImageUpload (file : option jsstring)
| AddMilestoneClick (now : Z)
| MilestoneMouseDown (index : nat)
| CanvasMouseMove (canvas : option DOMRect) (e : MouseEvent)
| DocumentMouseUp
| RemoveSelectedClick
| SubmitClick
| CancelClick
| SaveSettled (r : settlement).

(** The submit button carries [disabled={isSubmitting}]. *)
Definition submitDisabled (w : World) : bool := isSubmitting (state w).

Definition step (w : World) (ev : Event) : World :=
  match ev with
  | ChangeName v =>
      onState (setFormData (fun prev => {| name := v; theme := theme prev;
                 backgroundImage := backgroundImage prev;
                 milestones := milestones prev |})) w
  | ChangeTheme v =>
      onState (setFormData (fun prev => {| name := name prev; theme := v;
                 backgroundImage := backgroundImage prev;
                 milestones := milestones prev |})) w
  | ImageUpload file => onState (handleImageUpload file) w
  | AddMilestoneClick now => onState (handleAddMilestone now) w
  | MilestoneMouseDown i =>
      match milestones (formData (state w)) !! i with
      | Some milestone => onState (handleMilestoneMouseDown milestone) w
      | None => w
      end
  | CanvasMouseMove canvas e => onState (handleMouseMove canvas e) w
  | DocumentMouseUp => onState handleMouseUp w
  | RemoveSelectedClick => onState removeSelected w
  | SubmitClick => if submitDisabled w then w else handleSubmit w
  | CancelClick => invoke onCancel w
  | SaveSettled r =>
      match awaiting w with
      | O => w
      | S _ => handleSubmit_settled r w
      end
  end.

Definition run (w : World) (evs : list Event) : World := fold_left step evs w.

(** [{error && <motion.div ...>{error}</motion.div>}], lines 120-128. *)
Definition errorBanner (s : State) : option jsstring :=
  match error s with
  | Some message => if truthy message then Some message else None
  | None => None
  end.

(** [selectedMilestone?.id === milestone.id], line 201: whether a marker
    carries the selection ring. *)
Definition isHighlighted (s : State) (milestone : Milestone) : bool :=
  match selectedMilestone s with
  | Some selected => bool_decide (id selected = id milestone)
  | None => false
  end.

(** The colour classes of a marker, lines 205-209. *)
Definition statusClass (st : Status) : string :=
  match st with
  | completed => "bg-green-100 text-green-600"
  | _ =>
      match st with
      | unlocked => "bg-blue-100 text-blue-600"
      | _ => "bg-gray-100 text-gray-600"
      end
  end.

Inductive Icon := CheckCircle2 | Lock | Dot.

(** The icon of a marker, lines 213-219. *)
Definition statusIcon (st : Status) : Icon :=
  match st with
  | completed => CheckCircle2
  | _ =>
      match st with
      | locked => Lock
      | _ => Dot
      end
  end.

End PathEditor.

Module SM := StudentManagementModal.
Module PE := PathEditor.

(** ** Vocabulary of the statements *)

(** [w'] shows the validation message [msg] and is otherwise [w]: the draft,
    the in-progress flag, the callback log and the suspended activations
    are the same. *)
Definition student_rejected (msg : string) (w w' : SM.World) : Prop :=
  SM.error (SM.state w') = Some (str msg)
  /\ SM.formData (SM.state w') = SM.formData (SM.state w)
  /\ SM.isSubmitting (SM.state w') = SM.isSubmitting (SM.state w)
  /\ SM.calls w' = SM.calls w
  /\ SM.awaiting w' = SM.awaiting w.

(** An e-mail field passes when it is empty or contains an at sign. *)
Definition email_ok (s : jsstring) : Prop :=
  s = [] \/ includes s (str "@") = true.

Definition draft_ana_bad_parent : SM.FormData :=
  {| SM.name := str "Ana"; SM.email := []; SM.parentEmail := str "bad" |}.

Definition draft_ana : SM.FormData :=
  {| SM.name := str "Ana"; SM.email := str "a@b.com"; SM.parentEmail := str "p@b.com" |}.

(** A number between 0 and 100, both included. *)
Definition in_0_100 (v : number) : bool :=
  SFleb (num 0) v && SFleb v (num 100).

(** The identifiers of the milestones of the draft, in order. *)
Definition ids (s : PE.State) : list jsstring :=
  PE.id <$> PE.milestones (PE.formData s).

(** [w'] shows the validation message [msg] and is otherwise [w]. *)
Definition path_rejected (msg : string) (w w' : PE.World) : Prop :=
  PE.error (PE.state w') = Some (str msg)
  /\ PE.formData (PE.state w') = PE.formData (PE.state w)
  /\ PE.isSubmitting (PE.state w') = PE.isSubmitting (PE.state w)
  /\ PE.calls w' = PE.calls w
  /\ PE.awaiting w' = PE.awaiting w.

Definition canvas_400_300 : PE.DOMRect :=
  {| PE.left := num 0; PE.top := num 0; PE.width := num 400; PE.height := num 300 |}.

(** The rectangle of a canvas that has no layout box. *)
Definition canvas_empty : PE.DOMRect :=
  {| PE.left := num 0; PE.top := num 0; PE.width := num 0; PE.height := num 0 |}.

Definition pointer (cx cy : Z) : PE.MouseEvent :=
  {| PE.clientX := num cx; PE.clientY := num cy |}.

Definition draft_path : PE.FormData :=
  {| PE.name := str "Forest"; PE.theme := str "Nature";
     PE.backgroundImage := []; PE.milestones := [] |}.

(** An editor with one milestone, picked up for dragging. *)
Definition dragging_one : PE.World :=
  PE.run (PE.init None) [PE.AddMilestoneClick 1700000000000; PE.MilestoneMouseDown 0].

(** An editor with two milestones added at the same clock reading, the
    first of them picked up. *)
Definition same_instant_pair : PE.World :=
  PE.run (PE.init None)
    [PE.AddMilestoneClick 1700000000000; PE.AddMilestoneClick 1700000000000;
     PE.MilestoneMouseDown 0].

(** A string made of white space only (the empty string included). *)
Definition blank (s : jsstring) : bool := forallb isWhiteSpace s.

(** An e-mail field as the modal accepts it: empty, or with an at sign
    somewhere. *)
Definition email_accepted (s : jsstring) : bool :=
  match s with
  | [] => true
  | _ :: _ => existsb (N.eqb 64) s
  end.

Definition student_valid (fd : SM.FormData) : bool :=
  negb (blank (SM.name fd))
  && email_accepted (SM.email fd)
  && email_accepted (SM.parentEmail fd).

Definition path_valid (fd : PE.FormData) : bool :=
  negb (blank (PE.name fd)) && negb (blank (PE.theme fd)).

(** The payload [{...formData, classId}] of a student draft. *)
Definition student_payload (classId : jsstring) (fd : SM.FormData) : SM.StudentData :=
  {| SM.sd_name := SM.name fd;
     SM.sd_email := SM.email fd;
     SM.sd_parentEmail := SM.parentEmail fd;
     SM.sd_classId := classId |}.

(** What a well-formed call of the modal's callbacks looks like. *)
Definition student_call_ok (classId : jsstring) (c : SM.Call) : Prop :=
  match c with
  | SM.onSave sd =>
      SM.sd_classId sd = classId
      /\ student_valid {| SM.name := SM.sd_name sd;
                          SM.email := SM.sd_email sd;
                          SM.parentEmail := SM.sd_parentEmail sd |} = true
  | SM.onClose => True
  end.

Definition path_call_ok (c : PE.Call) : Prop :=
  match c with
  | PE.onSave fd => path_valid fd = true
  | PE.onCancel => True
  end.

(** Both coordinates of a milestone within [0,100]. *)
Definition placed (m : PE.Milestone) : bool :=
  in_0_100 (PE.x (PE.position m)) && in_0_100 (PE.y (PE.position m)).

Definition coordinate_sound (v : number) : bool := isNaN v || in_0_100 v.

(** Both coordinates of a milestone within [0,100] or NaN. *)
Definition placed_or_NaN (m : PE.Milestone) : bool :=
  coordinate_sound (PE.x (PE.position m)) && coordinate_sound (PE.y (PE.position m)).

(** A pointer move with finite coordinates over a canvas whose rectangle is
    finite and has a non-zero width and height; any other event. *)
Definition laid_out (ev : PE.Event) : bool :=
  match ev with
  | PE.CanvasMouseMove (Some rect) e =>
      isFinite (PE.clientX e) && isFinite (PE.clientY e)
      && isFinite (PE.left rect) && isFinite (PE.top rect)
      && isFinite (PE.width rect) && negb (SFeqb (PE.width rect) (num 0))
      && isFinite (PE.height rect) && negb (SFeqb (PE.height rect) (num 0))
  | _ => true
  end.

(** An editor with two milestones added at different clock readings, the
    first of them picked up. *)
Definition dragging_two : PE.World :=
  PE.run (PE.init None)
    [PE.AddMilestoneClick 1700000000000; PE.AddMilestoneClick 1700000000001;
     PE.MilestoneMouseDown 0].

Ltac split_all := repeat match goal with |- _ /\ _ => split end.

(** * Properties *)

(** ** Strings *)

Lemma truthy_true (s : jsstring) : truthy s = true <-> s <> [].
Proof. destruct s; simpl; split; intros; congruence. Qed.

Lemma trimStart_nil (s : jsstring) :
  trimStart s = [] <-> forallb isWhiteSpace s = true.
Proof.
  induction s as [|c s IH]; simpl; [tauto|].
  destruct (isWhiteSpace c); simpl; [exact IH|].
  split; intros; congruence.
Qed.

Lemma trimStart_suffix (s : jsstring) :
  trimStart s = [] \/ exists c t, trimStart s = c :: t /\ isWhiteSpace c = false.
Proof.
  induction s as [|c s IH]; simpl; [now left|].
  destruct (isWhiteSpace c) eqn:E; [exact IH|].
  right. exists c, s. split; [reflexivity | exact E].
Qed.

(** A name trims to the empty string exactly when it consists of white
    space only. *)
Lemma trim_nil (s : jsstring) :
  trim s = [] <-> forallb isWhiteSpace s = true.
Proof.
  unfold trim, trimEnd. split.
  - intros H. apply trimStart_nil.
    destruct (trimStart_suffix s) as [E | (c & t & E & Hc)]; [exact E|].
    rewrite E in H. apply (f_equal (@rev N)) in H.
    rewrite rev_involutive in H. simpl in H.
    apply trimStart_nil in H. rewrite forallb_app in H.
    apply andb_true_iff in H. destruct H as [_ H]. simpl in H.
    rewrite Hc in H. discriminate.
  - intros H. apply trimStart_nil in H. rewrite H. reflexivity.
Qed.

(** Searching for the one-unit string ["@"] is a membership test. *)
Lemma includes_at (s : jsstring) :
  includes s (str "@") = true <-> In 64 s.
Proof.
  induction s as [|c s IH].
  - simpl. split; [discriminate | tauto].
  - assert (E : includes (c :: s) (str "@")
                = ((64 =? c) || includes s (str "@"))%bool).
    { change (str "@") with [64]. cbn [includes startsWith].
      destruct s; cbn [startsWith]; now rewrite andb_true_r. }
    rewrite E, orb_true_iff, IH, N.eqb_eq. simpl. intuition congruence.
Qed.

Example trim_sample : trim (str "  Ana ") = str "Ana".
Proof. reflexivity. Qed.

(** The ideographic space is white space too. *)
Example trim_ideographic : trim [0x3000; 0x20] = [].
Proof. reflexivity. Qed.

Example includes_sample : includes (str "a@b.com") (str "@") = true.
Proof. reflexivity. Qed.

Example to_string_sample : Date_now_toString 1700000000000 = str "1700000000000".
Proof. vm_compute. reflexivity. Qed.

(** ** Student modal *)

(** C2: validation of a student draft runs in the order name, email,
    parentEmail and stops at the first failure: the matching message is
    shown, nothing is passed to [onSave] and the draft is kept.  The draft
    [{name:"Ana", email:"", parentEmail:"bad"}] fails with the parent-email
    message. *)
Theorem student_validation_short_circuits (classId : jsstring) (w : SM.World) :
  let fd := SM.formData (SM.state w) in
  let w' := SM.handleSubmit classId w in
  (trim (SM.name fd) = [] ->
     student_rejected "Student name is required" w w')
  /\ (trim (SM.name fd) <> [] ->
      SM.email fd <> [] -> includes (SM.email fd) (str "@") = false ->
      student_rejected "Please enter a valid email address" w w')
  /\ (trim (SM.name fd) <> [] -> email_ok (SM.email fd) ->
      SM.parentEmail fd <> [] -> includes (SM.parentEmail fd) (str "@") = false ->
      student_rejected "Please enter a valid parent email address" w w')
  /\ student_rejected "Please enter a valid parent email address"
       (SM.init (Some draft_ana_bad_parent))
       (SM.handleSubmit classId (SM.init (Some draft_ana_bad_parent))).
Proof.
  cbv zeta. unfold SM.handleSubmit. split_all.
  - intros Hn. rewrite Hn. simpl. unfold student_rejected. simpl. tauto.
  - intros Hn He Hat. apply truthy_true in Hn, He. rewrite Hn, He, Hat. simpl.
    unfold student_rejected. simpl. tauto.
  - intros Hn He Hp Hat. apply truthy_true in Hn, Hp. rewrite Hn, Hp, Hat.
    assert (Hskip : truthy (SM.email (SM.formData (SM.state w)))
                    && negb (includes (SM.email (SM.formData (SM.state w))) (str "@"))
                    = false).
    { destruct He as [He | He]; rewrite He; [reflexivity | apply andb_false_r]. }
    rewrite Hskip. simpl. unfold student_rejected. simpl. tauto.
  - unfold student_rejected. simpl. tauto.
Qed.

Lemma student_validation_short_circuits_witness :
  student_rejected "Please enter a valid parent email address"
    (SM.init (Some draft_ana_bad_parent))
    (SM.handleSubmit (str "C1") (SM.init (Some draft_ana_bad_parent))).
Proof.
  apply (proj1 (proj2 (proj2
    (student_validation_short_circuits (str "C1") (SM.init (Some draft_ana_bad_parent)))))).
  - simpl. discriminate.
  - left. reflexivity.
  - simpl. discriminate.
  - reflexivity.
Defined.

(** C9: a draft that passes validation is handed to [onSave] as
    [{name, email, parentEmail, classId}] with the [classId] prop, and once
    that save resolves [onClose] is called.  The draft
    [{name:"Ana", email:"a@b.com", parentEmail:"p@b.com"}] with class
    identifier "C1" gives exactly that save call followed by the close. *)
Theorem student_save_payload_then_close (classId : jsstring) (w : SM.World) :
  let fd := SM.formData (SM.state w) in
  let w1 := SM.handleSubmit classId w in
  (trim (SM.name fd) <> [] -> email_ok (SM.email fd) -> email_ok (SM.parentEmail fd) ->
     SM.calls w1
       = SM.calls w ++ [SM.onSave {| SM.sd_name := SM.name fd;
                                     SM.sd_email := SM.email fd;
                                     SM.sd_parentEmail := SM.parentEmail fd;
                                     SM.sd_classId := classId |}]
     /\ SM.awaiting w1 = S (SM.awaiting w)
     /\ SM.isSubmitting (SM.state w1) = true
     /\ SM.calls (SM.handleSubmit_settled Resolved w1) = SM.calls w1 ++ [SM.onClose])
  /\ SM.calls (SM.run (str "C1") (SM.init (Some draft_ana))
                 [SM.SubmitClick; SM.SaveSettled Resolved])
     = [SM.onSave {| SM.sd_name := str "Ana";
                     SM.sd_email := str "a@b.com";
                     SM.sd_parentEmail := str "p@b.com";
                     SM.sd_classId := str "C1" |};
        SM.onClose].
Proof.
  cbv zeta. split; [|reflexivity].
  intros Hn He Hp. unfold SM.handleSubmit.
  apply truthy_true in Hn. rewrite Hn.
  assert (Hskip : forall s, email_ok s ->
                    truthy s && negb (includes s (str "@")) = false).
  { intros s [E | E]; rewrite E; [reflexivity | apply andb_false_r]. }
  rewrite (Hskip _ He), (Hskip _ Hp). simpl. tauto.
Qed.

Lemma student_save_payload_then_close_witness :
  let w := SM.init (Some draft_ana) in
  let w1 := SM.handleSubmit (str "C1") w in
  SM.calls w1
    = [SM.onSave {| SM.sd_name := str "Ana";
                    SM.sd_email := str "a@b.com";
                    SM.sd_parentEmail := str "p@b.com";
                    SM.sd_classId := str "C1" |}]
  /\ SM.awaiting w1 = 1%nat
  /\ SM.isSubmitting (SM.state w1) = true
  /\ SM.calls (SM.handleSubmit_settled Resolved w1) = SM.calls w1 ++ [SM.onClose].
Proof.
  cbv zeta.
  apply (proj1 (student_save_payload_then_close (str "C1") (SM.init (Some draft_ana)))).
  - simpl. discriminate.
  - right. reflexivity.
  - right. reflexivity.
Defined.

(** A rejected save in the modal: the message of an [Error], else the
    fallback; the draft and the callback log are as they were. *)
Lemma student_save_rejected (w : SM.World) (err : thrown) :
  let w' := SM.handleSubmit_settled (Rejected err) w in
  SM.error (SM.state w')
    = Some (match err with
            | ErrorInstance m => m
            | OtherValue => str "Failed to save student"
            end)
  /\ SM.formData (SM.state w') = SM.formData (SM.state w)
  /\ SM.calls w' = SM.calls w
  /\ SM.isSubmitting (SM.state w') = false.
Proof. destruct err; simpl; tauto. Qed.

(** In every world the modal can reach, the in-progress flag is set exactly
    while one save is outstanding. *)
Lemma student_flag_tracks_save (classId : jsstring) (student : option SM.FormData)
    (evs : list SM.Event) :
  let w := SM.run classId (SM.init student) evs in
  SM.awaiting w = if SM.isSubmitting (SM.state w) then 1%nat else 0%nat.
Proof.
  cbv zeta. unfold SM.run.
  induction evs as [|ev evs IH] using rev_ind; [reflexivity|].
  rewrite fold_left_app. simpl.
  set (w := fold_left (SM.step classId) evs (SM.init student)) in *.
  destruct ev; simpl; try exact IH.
  - unfold SM.submitDisabled.
    destruct (SM.isSubmitting (SM.state w)) eqn:E; [now rewrite E|].
    unfold SM.handleSubmit.
    destruct (negb _); [simpl; now rewrite E|].
    destruct (_ && _); [simpl; now rewrite E|].
    destruct (_ && _); [simpl; now rewrite E|].
    simpl. now rewrite IH.
  - destruct (SM.awaiting w) as [|n] eqn:A; [now rewrite A|].
    destruct (SM.isSubmitting (SM.state w)); [|discriminate].
    injection IH as ->. destruct r; simpl; rewrite A; reflexivity.
Qed.

(** ** Numbers *)

Lemma num_100 : num 100 = S754_finite false 7036874417766400 (-46).
Proof. reflexivity. Qed.

Lemma num_0 : num 0 = S754_zero false.
Proof. reflexivity. Qed.

Lemma SFltb_SFleb (a b : number) : SFltb a b = true -> SFleb a b = true.
Proof. unfold SFltb, SFleb. destruct (SFcompare a b) as [[]|]; congruence. Qed.

(** [Math.min(100, v)] *)
Lemma Math_min_100 (v : number) :
  Math_min [num 100; v]
  = if isNaN v then S754_nan else if SFltb v (num 100) then v else num 100.
Proof. rewrite num_100. destruct v as [[]|[]| |s m e]; reflexivity. Qed.

(** [Math.max(0, v)] *)
Lemma Math_max_0 (v : number) :
  Math_max [num 0; v]
  = if isNaN v then S754_nan else if SFltb (num 0) v then v else num 0.
Proof. rewrite num_0. destruct v as [[]|[]| |[] m e]; reflexivity. Qed.

(** Clamping lets only NaN escape the interval. *)
Lemma clamp_range (v : number) :
  if isNaN v then PE.clamp v = S754_nan else in_0_100 (PE.clamp v) = true.
Proof.
  unfold PE.clamp. rewrite Math_min_100.
  destruct (isNaN v) eqn:Hv; [reflexivity|].
  set (m := if SFltb v (num 100) then v else num 100).
  assert (Hm : isNaN m = false /\ SFleb m (num 100) = true).
  { subst m. destruct (SFltb v (num 100)) eqn:E.
    - split; [exact Hv | now apply SFltb_SFleb].
    - split; reflexivity. }
  destruct Hm as [Hn Hle]. rewrite Math_max_0, Hn.
  unfold in_0_100. destruct (SFltb (num 0) m) eqn:E.
  - now rewrite (SFltb_SFleb _ _ E), Hle.
  - reflexivity.
Qed.

(** A value strictly inside the interval is left alone. *)
Lemma clamp_inside (v : number) :
  SFltb (num 0) v = true -> SFltb v (num 100) = true -> PE.clamp v = v.
Proof.
  intros H0 H100. unfold PE.clamp. rewrite Math_min_100, H100.
  assert (Hv : isNaN v = false) by (destruct v; try reflexivity; discriminate).
  now rewrite Hv, Math_max_0, Hv, H0.
Qed.

(** Rounding a non-negative mantissa never produces NaN. *)
Lemma shr_1_nonneg (mrs : shr_record) :
  (0 <= shr_m mrs)%Z -> (0 <= shr_m (shr_1 mrs))%Z.
Proof. destruct mrs as [[|[p|p|]|[p|p|]] r s]; simpl; lia. Qed.

Lemma iter_pos_invariant {A} (P : A -> Prop) (f : A -> A) :
  (forall a, P a -> P (f a)) -> forall n a, P a -> P (SpecFloat.iter_pos f n a).
Proof. intros Hf. induction n as [n IH|n IH|]; simpl; auto. Qed.

Lemma shr_fexp_nonneg (m e : Z) (l : location) :
  (0 <= m)%Z -> (0 <= shr_m (fst (shr_fexp prec emax m e l)))%Z.
Proof.
  intros Hm. unfold shr_fexp, shr.
  assert (H0 : (0 <= shr_m (shr_record_of_loc m l))%Z)
    by (destruct l as [|[]]; exact Hm).
  destruct (_ - e)%Z; simpl; try exact H0.
  apply (iter_pos_invariant (fun r => (0 <= shr_m r)%Z));
    [apply shr_1_nonneg | exact H0].
Qed.

Lemma round_nearest_even_nonneg (m : Z) (l : location) :
  (0 <= m)%Z -> (0 <= round_nearest_even m l)%Z.
Proof. intros Hm. destruct l as [|[]]; simpl; try destruct (Z.even m); lia. Qed.

Lemma binary_round_aux_not_NaN (sx : bool) (mx ex : Z) (lx : location) :
  (0 <= mx)%Z -> isNaN (binary_round_aux prec emax sx mx ex lx) = false.
Proof.
  intros Hm. unfold binary_round_aux.
  pose proof (shr_fexp_nonneg mx ex lx Hm) as H1.
  destruct (shr_fexp prec emax mx ex lx) as [mrs' e']. simpl in H1.
  pose proof (shr_fexp_nonneg _ e' loc_Exact
                (round_nearest_even_nonneg _ (loc_of_shr_record mrs') H1)) as H2.
  destruct (shr_fexp prec emax _ e' loc_Exact) as [mrs'' e'']. simpl in H2.
  destruct (shr_m mrs''); [reflexivity | | lia].
  destruct (_ <=? _)%Z; reflexivity.
Qed.

Lemma sub_finite (a b : number) :
  isFinite a = true -> isFinite b = true -> isNaN (sub a b) = false.
Proof.
  destruct a as [[]| | |sa ma ea], b as [[]| | |sb mb eb]; try discriminate;
    intros _ _; try reflexivity.
  unfold sub, SFsub, binary_normalize.
  destruct (_ - _)%Z; [reflexivity | |]; unfold binary_round;
    destruct (shl_align _ _ _); now apply binary_round_aux_not_NaN.
Qed.

Lemma div_finite (a b : number) :
  isNaN a = false -> isFinite b = true -> SFeqb b (num 0) = false ->
  isNaN (div a b) = false.
Proof.
  destruct a as [[]|[]| |sa ma ea], b as [[]| | |sb mb eb]; try discriminate;
    intros _ _ _; try reflexivity.
  unfold div, SFdiv.
  destruct (SFdiv_core_binary _ _ _ _ _ _) as [[q e'] l] eqn:E.
  apply binary_round_aux_not_NaN.
  unfold SFdiv_core_binary in E.
  match type of E with context [Z.div_eucl ?a ?b] =>
    pose proof (Z_div_mod a b eq_refl) as Hdiv;
    assert (Ha : (0 <= a)%Z)
      by (destruct (_ - _ - _)%Z; [lia | apply Z.shiftl_nonneg; lia | lia]);
    destruct (Z.div_eucl a b) as [q' r'] end.
  injection E as <- _ _. nia.
Qed.

Lemma mul_finite (a b : number) :
  isNaN a = false -> isFinite b = true -> SFeqb b (num 0) = false ->
  isNaN (mul a b) = false.
Proof.
  destruct a as [[]|[]| |sa ma ea], b as [[]| | |sb mb eb]; try discriminate;
    intros _ _ _; try reflexivity.
  unfold mul, SFmul. now apply binary_round_aux_not_NaN.
Qed.

(** With finite coordinates and a finite, non-zero extent the percentage is a
    number, and its clamped value lies within [0,100]. *)
Lemma percent_not_NaN (client origin extent : number) :
  isFinite client = true -> isFinite origin = true ->
  isFinite extent = true -> SFeqb extent (num 0) = false ->
  isNaN (PE.percent client origin extent) = false.
Proof.
  intros Hc Ho He Hz. unfold PE.percent.
  apply mul_finite; [|reflexivity..].
  apply div_finite; [|exact He | exact Hz].
  now apply sub_finite.
Qed.

Lemma clamped_percent_in_range (client origin extent : number) :
  isFinite client = true -> isFinite origin = true ->
  isFinite extent = true -> SFeqb extent (num 0) = false ->
  in_0_100 (PE.clamp (PE.percent client origin extent)) = true.
Proof.
  intros Hc Ho He Hz.
  pose proof (clamp_range (PE.percent client origin extent)) as H.
  now rewrite (percent_not_NaN _ _ _ Hc Ho He Hz) in H.
Qed.

(** The scenario of the specification: 440 of 400 pixels is 110 percent
    (110.00000000000001 in binary64) and clamps to 100; 150 of 300 pixels is
    50 percent. *)
Example clamp_scenario :
  PE.clamp (PE.percent (num 440) (num 0) (num 400)) = num 100
  /\ PE.clamp (PE.percent (num 150) (num 0) (num 300)) = num 50.
Proof. split; vm_compute; reflexivity. Qed.

(** ** Path editor: dragging *)

(** While a drag is active, every milestone carrying the identifier of the
    selected one receives the clamped percentages of the pointer within the
    bounding rectangle of the canvas. *)
Lemma mouse_move_position (rect : PE.DOMRect) (e : PE.MouseEvent) (s : PE.State)
    (sel m : PE.Milestone) (i : nat) :
  PE.isDragging s = true ->
  PE.selectedMilestone s = Some sel ->
  PE.milestones (PE.formData s) !! i = Some m ->
  PE.id m = PE.id sel ->
  PE.milestones (PE.formData (PE.handleMouseMove (Some rect) e s)) !! i
  = Some {| PE.id := PE.id m;
            PE.position :=
              {| PE.x := PE.clamp (PE.percent (PE.clientX e) (PE.left rect) (PE.width rect));
                 PE.y := PE.clamp (PE.percent (PE.clientY e) (PE.top rect) (PE.height rect)) |};
            PE.activityId := PE.activityId m;
            PE.status := PE.status m |}.
Proof.
  intros Hd Hs Hm Hid. unfold PE.handleMouseMove. rewrite Hd, Hs. simpl.
  rewrite list_lookup_fmap, Hm. simpl.
  destruct (decide (PE.id m = PE.id sel)); [reflexivity | contradiction].
Qed.

(** On a canvas with a finite, non-zero width and height, a pointer move at
    finite coordinates leaves the dragged milestone within [0,100] on both
    axes, wherever the pointer is. *)
Lemma mouse_move_in_range (rect : PE.DOMRect) (e : PE.MouseEvent) (s : PE.State)
    (sel m : PE.Milestone) (i : nat) :
  PE.isDragging s = true ->
  PE.selectedMilestone s = Some sel ->
  PE.milestones (PE.formData s) !! i = Some m ->
  PE.id m = PE.id sel ->
  isFinite (PE.clientX e) = true -> isFinite (PE.clientY e) = true ->
  isFinite (PE.left rect) = true -> isFinite (PE.top rect) = true ->
  isFinite (PE.width rect) = true -> SFeqb (PE.width rect) (num 0) = false ->
  isFinite (PE.height rect) = true -> SFeqb (PE.height rect) (num 0) = false ->
  exists m', PE.milestones (PE.formData (PE.handleMouseMove (Some rect) e s)) !! i
             = Some m'
    /\ in_0_100 (PE.x (PE.position m')) = true
    /\ in_0_100 (PE.y (PE.position m')) = true.
Proof.
  intros Hd Hs Hm Hid Hx Hy Hl Ht Hw Hw0 Hh Hh0.
  eexists. split; [now apply (mouse_move_position rect e s sel m i)|].
  simpl. split; now apply clamped_percent_in_range.
Qed.

(** On a 400x300 canvas at the origin a pointer at (440, 150) puts the
    dragged milestone at (100, 50). *)
Example drag_scenario :
  PE.position <$>
    PE.milestones (PE.formData (PE.state
      (PE.step dragging_one
         (PE.CanvasMouseMove (Some canvas_400_300) (pointer 440 150)))))
  = [{| PE.x := num 100; PE.y := num 50 |}].
Proof. vm_compute. reflexivity. Qed.

(** C1: coordinates are to stay within [0,100] after every pointer move of a
    drag.  On a canvas whose bounding rectangle is empty, a pointer at its
    origin makes both quotients 0/0: the position stored for the dragged
    milestone is (NaN, NaN), which is not within [0,100]. *)
Theorem drag_on_empty_canvas_stores_NaN :
  PE.isDragging (PE.state dragging_one) = true
  /\ PE.position <$>
       PE.milestones (PE.formData (PE.state
         (PE.step dragging_one
            (PE.CanvasMouseMove (Some canvas_empty) (pointer 0 0)))))
     = [{| PE.x := S754_nan; PE.y := S754_nan |}]
  /\ in_0_100 S754_nan = false.
Proof. split_all; vm_compute; reflexivity. Qed.

Lemma mouse_move_noop (canvas : option PE.DOMRect) (e : PE.MouseEvent) (s : PE.State) :
  PE.isDragging s = false \/ PE.selectedMilestone s = None \/ canvas = None ->
  PE.handleMouseMove canvas e s = s.
Proof.
  unfold PE.handleMouseMove.
  destruct (PE.isDragging s), (PE.selectedMilestone s), canvas;
    intros [H | [H | H]]; try discriminate; reflexivity.
Qed.

(** A pointer move changes nothing but the position of the milestones
    carrying the selected identifier. *)
Lemma mouse_move_frame_by_identifier (canvas : option PE.DOMRect) (e : PE.MouseEvent) (s : PE.State) :
  let s' := PE.handleMouseMove canvas e s in
  let ms := PE.milestones (PE.formData s) in
  let ms' := PE.milestones (PE.formData s') in
  PE.selectedMilestone s' = PE.selectedMilestone s
  /\ PE.isDragging s' = PE.isDragging s
  /\ PE.isSubmitting s' = PE.isSubmitting s
  /\ PE.error s' = PE.error s
  /\ PE.name (PE.formData s') = PE.name (PE.formData s)
  /\ PE.theme (PE.formData s') = PE.theme (PE.formData s)
  /\ PE.backgroundImage (PE.formData s') = PE.backgroundImage (PE.formData s)
  /\ length ms' = length ms
  /\ (forall i m, ms !! i = Some m ->
        exists m', ms' !! i = Some m'
          /\ PE.id m' = PE.id m
          /\ PE.activityId m' = PE.activityId m
          /\ PE.status m' = PE.status m
          /\ (forall sel, PE.selectedMilestone s = Some sel ->
                 PE.id m <> PE.id sel -> m' = m))
  /\ (PE.isDragging s = false \/ PE.selectedMilestone s = None \/ canvas = None ->
      s' = s).
Proof.
  cbv zeta.
  destruct (PE.isDragging s) eqn:Hd, (PE.selectedMilestone s) as [sel|] eqn:Hs,
    canvas as [rect|].
  2-8: rewrite mouse_move_noop by (rewrite ?Hd, ?Hs; tauto);
    split_all; try reflexivity; try assumption;
    intros i m Hm; exists m; split_all; try assumption; reflexivity.
  unfold PE.handleMouseMove. rewrite Hd, Hs.
  simpl. split_all; try reflexivity; try assumption.
  - apply length_fmap.
  - intros i m Hm. rewrite list_lookup_fmap, Hm. simpl.
    destruct (decide (PE.id m = PE.id sel)) as [Heq | Hne].
    + eexists. split; [reflexivity|]. simpl. split_all; try reflexivity.
      intros sel' [= <-] Hne. contradiction.
    + exists m. split_all; reflexivity.
  - intros [H | [H | H]]; discriminate.
Qed.

(** Pressing one of two milestones that were added at the same clock reading
    and moving the pointer moves both of them: the milestone that was not
    pressed changes its position as well. *)
Lemma pointer_move_same_instant_counterexample :
  PE.selectedMilestone (PE.state same_instant_pair)
  = PE.milestones (PE.formData (PE.state same_instant_pair)) !! 0%nat
  /\ PE.position <$> PE.milestones (PE.formData (PE.state same_instant_pair)) !! 1%nat
     = Some {| PE.x := num 50; PE.y := num 50 |}
  /\ PE.position <$>
       PE.milestones (PE.formData (PE.state
         (PE.step same_instant_pair
            (PE.CanvasMouseMove (Some canvas_400_300) (pointer 440 150))))) !! 1%nat
     = Some {| PE.x := num 100; PE.y := num 50 |}
  /\ PE.milestones (PE.formData (PE.state
         (PE.step same_instant_pair
            (PE.CanvasMouseMove (Some canvas_400_300) (pointer 440 150))))) !! 1%nat
     <> PE.milestones (PE.formData (PE.state same_instant_pair)) !! 1%nat.
Proof. split_all; vm_compute; congruence. Qed.

(** C5 (amended): a pointer move of a drag rewrites the position of the
    milestones that carry the selected identifier, and of nothing else: a
    milestone with another identifier is kept as it is, the identifier,
    activity reference and status of every milestone are kept, and so are the
    number of milestones and the rest of the state.  When the identifiers are
    pairwise distinct, every milestone but the selected one is kept as it
    is.  Without an active drag, a selection or a canvas the state is
    returned as it is. *)
Theorem pointer_move_frame (canvas : option PE.DOMRect) (e : PE.MouseEvent) (s : PE.State) :
  let s' := PE.handleMouseMove canvas e s in
  let ms := PE.milestones (PE.formData s) in
  let ms' := PE.milestones (PE.formData s') in
  PE.selectedMilestone s' = PE.selectedMilestone s
  /\ PE.isDragging s' = PE.isDragging s
  /\ PE.isSubmitting s' = PE.isSubmitting s
  /\ PE.error s' = PE.error s
  /\ PE.name (PE.formData s') = PE.name (PE.formData s)
  /\ PE.theme (PE.formData s') = PE.theme (PE.formData s)
  /\ PE.backgroundImage (PE.formData s') = PE.backgroundImage (PE.formData s)
  /\ length ms' = length ms
  /\ (forall i m, ms !! i = Some m ->
        exists m', ms' !! i = Some m'
          /\ PE.id m' = PE.id m
          /\ PE.activityId m' = PE.activityId m
          /\ PE.status m' = PE.status m
          /\ (forall sel, PE.selectedMilestone s = Some sel ->
                 PE.id m <> PE.id sel -> m' = m))
  /\ (forall rect sel i m,
        canvas = Some rect -> PE.isDragging s = true ->
        PE.selectedMilestone s = Some sel ->
        ms !! i = Some m -> PE.id m = PE.id sel ->
        PE.position <$> ms' !! i
        = Some {| PE.x := PE.clamp (PE.percent (PE.clientX e) (PE.left rect) (PE.width rect));
                  PE.y := PE.clamp (PE.percent (PE.clientY e) (PE.top rect) (PE.height rect)) |})
  /\ (forall sel i j m,
        PE.selectedMilestone s = Some sel -> NoDup (ids s) ->
        ms !! i = Some m -> PE.id m = PE.id sel -> j <> i ->
        ms' !! j = ms !! j)
  /\ (PE.isDragging s = false \/ PE.selectedMilestone s = None \/ canvas = None ->
      s' = s).
Proof.
  pose proof (mouse_move_frame_by_identifier canvas e s) as H. cbv zeta in H.
  destruct H as (H1 & H2 & H3 & H4 & H5 & H6 & H7 & H8 & H9 & H10).
  cbv zeta. split_all; try assumption.
  - intros rect sel i m -> Hd Hs Hm Hid.
    now rewrite (mouse_move_position rect e s sel m i Hd Hs Hm Hid).
  - intros sel i j m Hs Hnd Hm Hid Hji.
    destruct (PE.milestones (PE.formData s) !! j) as [mj|] eqn:Hj.
    + destruct (H9 j mj Hj) as (m' & Hm' & _ & _ & _ & Hsame).
      rewrite Hm'. f_equal. apply (Hsame sel Hs). intros Heq. apply Hji.
      apply (NoDup_lookup (ids s) j i (PE.id sel) Hnd); unfold ids;
        rewrite list_lookup_fmap; [rewrite Hj | rewrite Hm]; simpl; congruence.
    + apply lookup_ge_None. rewrite H8. now apply lookup_ge_None.
Qed.

Lemma pointer_move_frame_witness :
  PE.milestones (PE.formData
    (PE.handleMouseMove (Some canvas_400_300) (pointer 440 150) (PE.state dragging_two)))
    !! 1%nat
  = PE.milestones (PE.formData (PE.state dragging_two)) !! 1%nat
  /\ PE.position <$>
       PE.milestones (PE.formData
         (PE.handleMouseMove (Some canvas_400_300) (pointer 440 150)
            (PE.state dragging_two))) !! 0%nat
     = Some {| PE.x := PE.clamp (PE.percent (num 440) (num 0) (num 400));
               PE.y := PE.clamp (PE.percent (num 150) (num 0) (num 300)) |}.
Proof.
  pose proof (pointer_move_frame (Some canvas_400_300) (pointer 440 150)
                (PE.state dragging_two)) as H.
  cbv zeta in H.
  destruct H as (_ & _ & _ & _ & _ & _ & _ & _ & _ & Hpos & Hother & _).
  split.
  - apply (Hother (PE.newMilestone 1700000000000) 0%nat 1%nat
             (PE.newMilestone 1700000000000)).
    + reflexivity.
    + vm_compute. apply NoDup_cons. split.
      * intros H. apply list_elem_of_singleton in H. discriminate.
      * apply NoDup_singleton.
    + reflexivity.
    + reflexivity.
    + discriminate.
  - apply (Hpos canvas_400_300 (PE.newMilestone 1700000000000) 0%nat
             (PE.newMilestone 1700000000000)); reflexivity.
Defined.

(** ** Path editor: selection *)

(** Only pressing a marker and the Remove Selected button write the
    selection. *)
Lemma step_keeps_selection (w : PE.World) (ev : PE.Event) :
  (forall i, ev <> PE.MilestoneMouseDown i) ->
  ev <> PE.RemoveSelectedClick ->
  PE.selectedMilestone (PE.state (PE.step w ev)) = PE.selectedMilestone (PE.state w).
Proof.
  intros Hdown Hrem. destruct ev; simpl; try reflexivity.
  - destruct file; reflexivity.
  - now destruct (Hdown index).
  - unfold PE.handleMouseMove.
    destruct (PE.isDragging (PE.state w)),
      (PE.selectedMilestone (PE.state w)) eqn:Hs, canvas; simpl; congruence.
  - contradiction.
  - unfold PE.submitDisabled, PE.handleSubmit.
    destruct (PE.isSubmitting _); [reflexivity|].
    destruct (_ || _); reflexivity.
  - destruct (PE.awaiting w); [reflexivity|]. destruct r; reflexivity.
Qed.

(** C10: releasing the pointer clears the dragging flag and nothing else, so
    the milestone picked up at the start of the drag is still the selected
    one and Remove Selected removes by its identifier; the selection is
    kept by every event except pressing a marker and Remove Selected. *)
Theorem mouse_up_keeps_selection (s : PE.State) (m : PE.Milestone) :
  (let s' := PE.handleMouseUp s in
   PE.isDragging s' = false
   /\ PE.selectedMilestone s' = PE.selectedMilestone s
   /\ PE.formData s' = PE.formData s
   /\ PE.isSubmitting s' = PE.isSubmitting s
   /\ PE.error s' = PE.error s)
  /\ (let s' := PE.handleMouseUp (PE.handleMilestoneMouseDown m s) in
      PE.selectedMilestone s' = Some m
      /\ PE.milestones (PE.formData (PE.removeSelected s'))
         = filter (fun m' => PE.id m' <> PE.id m) (PE.milestones (PE.formData s)))
  /\ (forall w ev,
        (forall i, ev <> PE.MilestoneMouseDown i) ->
        ev <> PE.RemoveSelectedClick ->
        PE.selectedMilestone (PE.state (PE.step w ev))
        = PE.selectedMilestone (PE.state w)).
Proof.
  cbv zeta. split_all; try reflexivity. apply step_keeps_selection.
Qed.

Lemma mouse_up_keeps_selection_witness :
  PE.selectedMilestone (PE.state (PE.step dragging_one PE.DocumentMouseUp))
  = PE.selectedMilestone (PE.state dragging_one).
Proof.
  apply (proj2 (proj2 (mouse_up_keeps_selection
                         (PE.state dragging_one) (PE.newMilestone 0)))).
  - intros i. discriminate.
  - discriminate.
Defined.

(** ** Path editor: removing the selected milestone *)

Lemma filter_absent_id (ms : list PE.Milestone) (k : jsstring) :
  k ∉ PE.id <$> ms -> filter (fun m => PE.id m <> k) ms = ms.
Proof.
  induction ms as [|a ms IH]; [reflexivity|].
  rewrite fmap_cons, not_elem_of_cons. intros [Hne Hnot].
  rewrite filter_cons_True by congruence. now rewrite IH.
Qed.





(** ** Path editor: adding milestones *)

Lemma str_inj (a b : string) : str a = str b -> a = b.
Proof.
  revert b. induction a as [|c a IH]; intros [|d b]; simpl; try discriminate.
  - reflexivity.
  - intros [= Hc Hs]. f_equal; [|now apply IH].
    rewrite <- (ascii_N_embedding c), <- (ascii_N_embedding d). now rewrite Hc.
Qed.

(** Different clock readings render to different identifiers. *)
Lemma Date_now_toString_inj (t t' : Z) :
  Date_now_toString t = Date_now_toString t' -> t = t'.
Proof. intros H. apply str_inj in H. now apply (inj pretty) in H. Qed.

Lemma ids_add (now : Z) (s : PE.State) :
  ids (PE.handleAddMilestone now s) = ids s ++ [Date_now_toString now].
Proof. unfold ids. simpl. now rewrite fmap_app. Qed.

Lemma ids_mouse_move (canvas : option PE.DOMRect) (e : PE.MouseEvent) (s : PE.State) :
  ids (PE.handleMouseMove canvas e s) = ids s.
Proof.
  unfold PE.handleMouseMove.
  destruct (PE.isDragging s), (PE.selectedMilestone s) as [sel|], canvas;
    try reflexivity.
  unfold ids. simpl. rewrite <- list_fmap_compose. apply list_fmap_ext.
  intros i m _. simpl. now destruct (decide (PE.id m = PE.id sel)).
Qed.

Lemma ids_remove (s : PE.State) : sublist (ids (PE.removeSelected s)) (ids s).
Proof.
  unfold PE.removeSelected, ids. destruct (PE.selectedMilestone s); [|reflexivity].
  simpl. apply fmap_sublist, sublist_filter.
Qed.

(** Every event but Add Milestone keeps the identifiers pairwise distinct. *)
Lemma step_keeps_ids_distinct (w : PE.World) (ev : PE.Event) :
  (forall t, ev <> PE.AddMilestoneClick t) ->
  NoDup (ids (PE.state w)) -> NoDup (ids (PE.state (PE.step w ev))).
Proof.
  intros Hadd Hnd. destruct ev; simpl; try exact Hnd.
  - destruct file; exact Hnd.
  - now destruct (Hadd now).
  - destruct (_ !! index); exact Hnd.
  - now rewrite ids_mouse_move.
  - eapply sublist_NoDup; [exact Hnd | apply ids_remove].
  - unfold PE.submitDisabled, PE.handleSubmit.
    destruct (PE.isSubmitting (PE.state w)); [exact Hnd|].
    destruct (_ || _); exact Hnd.
  - destruct (PE.awaiting w); [exact Hnd|]. destruct r; exact Hnd.
Qed.

(** X20: additions at pairwise distinct clock readings to an empty path give
    pairwise distinct identifiers. *)
Lemma adds_at_distinct_instants (ts : list Z) :
  NoDup ts ->
  NoDup (ids (PE.state (PE.run (PE.init None) (PE.AddMilestoneClick <$> ts)))).
Proof.
  intros Hnd.
  assert (E : ids (PE.state (PE.run (PE.init None) (PE.AddMilestoneClick <$> ts)))
              = Date_now_toString <$> ts).
  { unfold PE.run. induction ts as [|t ts IH] using rev_ind; [reflexivity|].
    apply NoDup_app in Hnd. destruct Hnd as (Hnd & _ & _).
    rewrite !fmap_app, fold_left_app. simpl.
    rewrite ids_add, IH by exact Hnd. reflexivity. }
  rewrite E. apply NoDup_fmap_2_strong; [|exact Hnd].
  intros t t' _ _. apply Date_now_toString_inj.
Qed.

(** Two additions at one clock reading give two milestones with one
    identifier. *)
Lemma add_same_instant_counterexample :
  ~ NoDup (ids (PE.state
       (PE.run (PE.init None)
          [PE.AddMilestoneClick 1700000000000; PE.AddMilestoneClick 1700000000000]))).
Proof.
  intros H. apply NoDup_cons_1_1 in H. apply H.
  apply list_elem_of_singleton. reflexivity.
Qed.

(** C7 (amended): Add Milestone appends a milestone at (50,50) with empty
    activity reference and status locked whose identifier is the decimal
    rendering of the clock reading, and does not touch the selection.
    Different clock readings give different identifiers, so the identifiers
    stay pairwise distinct whenever the new one is not already present; every
    other event keeps them pairwise distinct. *)
Theorem add_milestone_appends (now : Z) (s : PE.State) :
  let s' := PE.handleAddMilestone now s in
  PE.milestones (PE.formData s')
  = PE.milestones (PE.formData s)
    ++ [{| PE.id := Date_now_toString now;
           PE.position := {| PE.x := num 50; PE.y := num 50 |};
           PE.activityId := [];
           PE.status := PE.locked |}]
  /\ PE.selectedMilestone s' = PE.selectedMilestone s
  /\ PE.isDragging s' = PE.isDragging s
  /\ PE.isSubmitting s' = PE.isSubmitting s
  /\ PE.error s' = PE.error s
  /\ PE.name (PE.formData s') = PE.name (PE.formData s)
  /\ PE.theme (PE.formData s') = PE.theme (PE.formData s)
  /\ PE.backgroundImage (PE.formData s') = PE.backgroundImage (PE.formData s)
  /\ (NoDup (ids s) -> Date_now_toString now ∉ ids s -> NoDup (ids s'))
  /\ (forall now', now <> now' -> Date_now_toString now <> Date_now_toString now')
  /\ (forall w ev, (forall t, ev <> PE.AddMilestoneClick t) ->
        NoDup (ids (PE.state w)) -> NoDup (ids (PE.state (PE.step w ev)))).
Proof.
  cbv zeta. split_all; try reflexivity.
  - intros Hnd Hfresh. rewrite ids_add. apply NoDup_app. split_all.
    + exact Hnd.
    + intros k Hk Hin. apply list_elem_of_singleton in Hin. now subst k.
    + apply NoDup_singleton.
  - intros now' Hne H. apply Hne. now apply Date_now_toString_inj.
  - apply step_keeps_ids_distinct.
Qed.

Lemma add_milestone_appends_witness :
  NoDup (ids (PE.handleAddMilestone 1700000000001 (PE.state dragging_one))).
Proof.
  refine (proj1 (proj2 (proj2 (proj2 (proj2 (proj2 (proj2 (proj2 (proj2
    (add_milestone_appends 1700000000001 (PE.state dragging_one)))))))))) _ _).
  - vm_compute. apply NoDup_singleton.
  - vm_compute. intros H. apply list_elem_of_singleton in H. discriminate.
Defined.

(** ** Path editor: submission *)

(** A rejected save in the editor: the message of an [Error], else the
    fallback; the draft and the callback log are as they were. *)
Lemma path_save_rejected (w : PE.World) (err : thrown) :
  let w' := PE.handleSubmit_settled (Rejected err) w in
  PE.error (PE.state w')
    = Some (match err with
            | ErrorInstance m => m
            | OtherValue => str "Failed to save path"
            end)
  /\ PE.formData (PE.state w') = PE.formData (PE.state w)
  /\ PE.selectedMilestone (PE.state w') = PE.selectedMilestone (PE.state w)
  /\ PE.calls w' = PE.calls w
  /\ PE.isSubmitting (PE.state w') = false.
Proof. destruct err; simpl; tauto. Qed.

(** In every world the editor can reach, the in-progress flag is set exactly
    while one save is outstanding. *)
Lemma path_flag_tracks_save (path : option PE.FormData) (evs : list PE.Event) :
  let w := PE.run (PE.init path) evs in
  PE.awaiting w = if PE.isSubmitting (PE.state w) then 1%nat else 0%nat.
Proof.
  cbv zeta. unfold PE.run.
  induction evs as [|ev evs IH] using rev_ind; [reflexivity|].
  rewrite fold_left_app. simpl.
  set (w := fold_left PE.step evs (PE.init path)) in *.
  destruct ev; simpl; try exact IH.
  - destruct file; exact IH.
  - destruct (_ !! index); exact IH.
  - unfold PE.handleMouseMove.
    destruct (PE.isDragging (PE.state w)), (PE.selectedMilestone (PE.state w)),
      canvas; exact IH.
  - unfold PE.removeSelected.
    destruct (PE.selectedMilestone (PE.state w)); exact IH.
  - unfold PE.submitDisabled.
    destruct (PE.isSubmitting (PE.state w)) eqn:E; [now rewrite E|].
    unfold PE.handleSubmit.
    destruct (_ || _); [simpl; now rewrite E|].
    simpl. now rewrite IH.
  - destruct (PE.awaiting w) as [|n] eqn:A; [now rewrite A|].
    destruct (PE.isSubmitting (PE.state w)); [|discriminate].
    injection IH as ->. destruct r; simpl; rewrite A; reflexivity.
Qed.

(** After a successful save the editor has called [onSave] and nothing
    else: no callback tells the caller to close. *)
Lemma path_save_success_no_close_counterexample :
  PE.calls (PE.run (PE.init (Some draft_path))
              [PE.SubmitClick; PE.SaveSettled Resolved])
  = [PE.onSave draft_path]
  /\ PE.onCancel ∉ PE.calls (PE.run (PE.init (Some draft_path))
                               [PE.SubmitClick; PE.SaveSettled Resolved]).
Proof.
  split; [reflexivity|]. intros H.
  apply list_elem_of_singleton in H. discriminate.
Qed.

(** C8 (amended): a path draft whose trimmed name or trimmed theme is empty is
    refused with the one required-fields message and [onSave] is not called;
    otherwise [onSave] receives the draft and the in-progress flag is set
    until the save settles.  A rejection by an [Error] with a non-empty
    message shows that message in the banner, a rejection by anything that is
    not an [Error] shows the fallback, in both cases with the draft kept; a
    success clears the flag without calling any further callback. *)
Theorem path_submit (w : PE.World) :
  let fd := PE.formData (PE.state w) in
  let w1 := PE.handleSubmit w in
  (trim (PE.name fd) = [] \/ trim (PE.theme fd) = [] ->
     path_rejected "Please fill in all required fields" w w1)
  /\ (trim (PE.name fd) <> [] -> trim (PE.theme fd) <> [] ->
      PE.calls w1 = PE.calls w ++ [PE.onSave fd]
      /\ PE.awaiting w1 = S (PE.awaiting w)
      /\ PE.isSubmitting (PE.state w1) = true
      /\ PE.error (PE.state w1) = None
      /\ PE.formData (PE.state w1) = fd
      /\ (forall err,
            let w2 := PE.handleSubmit_settled (Rejected err) w1 in
            PE.error (PE.state w2)
              = Some (match err with
                      | ErrorInstance m => m
                      | OtherValue => str "Failed to save path"
                      end)
            /\ PE.formData (PE.state w2) = fd
            /\ PE.isSubmitting (PE.state w2) = false
            /\ PE.calls w2 = PE.calls w1)
      /\ (forall m, m <> [] ->
            PE.errorBanner
              (PE.state (PE.handleSubmit_settled (Rejected (ErrorInstance m)) w1))
            = Some m)
      /\ PE.errorBanner (PE.state (PE.handleSubmit_settled (Rejected OtherValue) w1))
         = Some (str "Failed to save path")
      /\ (let w2 := PE.handleSubmit_settled Resolved w1 in
          PE.calls w2 = PE.calls w1
          /\ PE.awaiting w2 = PE.awaiting w
          /\ PE.isSubmitting (PE.state w2) = false
          /\ PE.error (PE.state w2) = None
          /\ PE.formData (PE.state w2) = fd)).
Proof.
  cbv zeta. unfold PE.handleSubmit. split.
  - intros H.
    assert (E : negb (truthy (trim (PE.name (PE.formData (PE.state w)))))
                || negb (truthy (trim (PE.theme (PE.formData (PE.state w))))) = true).
    { destruct H as [H | H]; rewrite H; [reflexivity | apply orb_true_r]. }
    rewrite E. unfold path_rejected. simpl. tauto.
  - intros Hn Ht. apply truthy_true in Hn, Ht. rewrite Hn, Ht. simpl.
    split_all; try reflexivity.
    + intros err. destruct err; simpl; tauto.
    + intros [|c m] Hm; [contradiction | reflexivity].
Qed.

Lemma path_submit_witness :
  path_rejected "Please fill in all required fields"
    (PE.init None) (PE.handleSubmit (PE.init None))
  /\ PE.calls (PE.handleSubmit (PE.init (Some draft_path))) = [PE.onSave draft_path]
  /\ PE.isSubmitting (PE.state (PE.handleSubmit (PE.init (Some draft_path)))) = true
  /\ PE.errorBanner
       (PE.state (PE.handleSubmit_settled
                    (Rejected (ErrorInstance (str "network down")))
                    (PE.handleSubmit (PE.init (Some draft_path)))))
     = Some (str "network down")
  /\ PE.formData
       (PE.state (PE.handleSubmit_settled
                    (Rejected (ErrorInstance (str "network down")))
                    (PE.handleSubmit (PE.init (Some draft_path)))))
     = draft_path
  /\ PE.calls (PE.handleSubmit_settled Resolved
                 (PE.handleSubmit (PE.init (Some draft_path))))
     = [PE.onSave draft_path].
Proof.
  split.
  - apply (proj1 (path_submit (PE.init None))). left. reflexivity.
  - pose proof (path_submit (PE.init (Some draft_path))) as H. cbv zeta in H.
    destruct H as [_ H].
    destruct H as (Hcalls & _ & Hflag & _ & _ & Hrej & Hshown & _ & Hres);
      [discriminate | discriminate |].
    split_all.
    + exact Hcalls.
    + exact Hflag.
    + apply Hshown. discriminate.
    + apply (Hrej (ErrorInstance (str "network down"))).
    + destruct Hres as (Hc & _). rewrite Hc. exact Hcalls.
Defined.

(** ** Both components *)

(** A save rejected by an [Error] whose message is empty stores the empty
    string: the banner shows neither a message nor the fallback, in the modal
    and in the editor alike. *)
Lemma save_rejection_empty_message_counterexample :
  SM.error (SM.state (SM.run (str "C1") (SM.init (Some draft_ana))
                        [SM.SubmitClick; SM.SaveSettled (Rejected (ErrorInstance []))]))
  = Some []
  /\ SM.errorBanner (SM.state (SM.run (str "C1") (SM.init (Some draft_ana))
                        [SM.SubmitClick; SM.SaveSettled (Rejected (ErrorInstance []))]))
     = None
  /\ PE.errorBanner (PE.state (PE.run (PE.init (Some draft_path))
                        [PE.SubmitClick; PE.SaveSettled (Rejected (ErrorInstance []))]))
     = None.
Proof. split_all; reflexivity. Qed.

(** C4 (amended): when the injected save is rejected by an [Error] with a
    non-empty message, the banner shows that message, and when it is rejected
    by anything that is not an [Error], the banner shows the fixed fallback
    string; the stored error is the message or the fallback in every case,
    the draft is the one before the save and no callback is invoked, so the
    modal and the editor stay open.  A rejection with message "network down"
    shows "network down". *)
Theorem save_rejection_surfaced (ws : SM.World) (wp : PE.World) (err : thrown) :
  (let ws' := SM.handleSubmit_settled (Rejected err) ws in
   SM.error (SM.state ws')
     = Some (match err with
             | ErrorInstance m => m
             | OtherValue => str "Failed to save student"
             end)
   /\ SM.formData (SM.state ws') = SM.formData (SM.state ws)
   /\ SM.calls ws' = SM.calls ws
   /\ SM.isSubmitting (SM.state ws') = false)
  /\ (let wp' := PE.handleSubmit_settled (Rejected err) wp in
      PE.error (PE.state wp')
        = Some (match err with
                | ErrorInstance m => m
                | OtherValue => str "Failed to save path"
                end)
      /\ PE.formData (PE.state wp') = PE.formData (PE.state wp)
      /\ PE.selectedMilestone (PE.state wp') = PE.selectedMilestone (PE.state wp)
      /\ PE.calls wp' = PE.calls wp
      /\ PE.isSubmitting (PE.state wp') = false)
  /\ (let ws' := SM.run (str "C1") (SM.init (Some draft_ana))
                   [SM.SubmitClick;
                    SM.SaveSettled (Rejected (ErrorInstance (str "network down")))] in
      SM.error (SM.state ws') = Some (str "network down")
      /\ SM.formData (SM.state ws') = draft_ana
      /\ SM.onClose ∉ SM.calls ws')
  /\ (let wp' := PE.run (PE.init (Some draft_path))
                   [PE.SubmitClick;
                    PE.SaveSettled (Rejected (ErrorInstance (str "network down")))] in
      PE.error (PE.state wp') = Some (str "network down")
      /\ PE.errorBanner (PE.state wp') = Some (str "network down")
      /\ PE.formData (PE.state wp') = draft_path
      /\ PE.calls wp' = [PE.onSave draft_path])
  /\ SM.errorBanner
       (SM.state (SM.run (str "C1") (SM.init (Some draft_ana))
                    [SM.SubmitClick;
                     SM.SaveSettled (Rejected (ErrorInstance (str "network down")))]))
     = Some (str "network down")
  /\ (forall m, m <> [] ->
        SM.errorBanner (SM.state (SM.handleSubmit_settled (Rejected (ErrorInstance m)) ws))
        = Some m
        /\ PE.errorBanner (PE.state (PE.handleSubmit_settled (Rejected (ErrorInstance m)) wp))
           = Some m)
  /\ SM.errorBanner (SM.state (SM.handleSubmit_settled (Rejected OtherValue) ws))
     = Some (str "Failed to save student")
  /\ PE.errorBanner (PE.state (PE.handleSubmit_settled (Rejected OtherValue) wp))
     = Some (str "Failed to save path").
Proof.
  cbv zeta. split; [apply student_save_rejected|].
  split; [apply path_save_rejected|].
  split_all; try reflexivity.
  - intros H. apply list_elem_of_singleton in H. discriminate.
  - intros [|c m] Hm; [contradiction | split; reflexivity].
Qed.

Lemma save_rejection_surfaced_witness :
  SM.errorBanner
    (SM.state (SM.handleSubmit_settled (Rejected (ErrorInstance (str "network down")))
                 (SM.handleSubmit (str "C1") (SM.init (Some draft_ana)))))
  = Some (str "network down")
  /\ PE.errorBanner
       (PE.state (PE.handleSubmit_settled (Rejected (ErrorInstance (str "network down")))
                    (PE.handleSubmit (PE.init (Some draft_path)))))
     = Some (str "network down").
Proof.
  pose proof (save_rejection_surfaced
                (SM.handleSubmit (str "C1") (SM.init (Some draft_ana)))
                (PE.handleSubmit (PE.init (Some draft_path)))
                OtherValue) as H.
  cbv zeta in H. destruct H as (_ & _ & _ & _ & _ & H & _).
  apply H. discriminate.
Defined.

(** The guard against a second submission is the disabled button: the
    handlers themselves do not look at the flag, and running one again while
    a save is outstanding would start a second save. *)
Remark handleSubmit_does_not_test_flag :
  SM.awaiting (SM.handleSubmit (str "C1")
                 (SM.handleSubmit (str "C1") (SM.init (Some draft_ana)))) = 2%nat
  /\ PE.awaiting (PE.handleSubmit (PE.handleSubmit (PE.init (Some draft_path)))) = 2%nat.
Proof. split; reflexivity. Qed.

(** C3: in every world either component can reach, at most one save is
    outstanding and the in-progress flag is set exactly while it is; a click
    on the submit button while the flag is set changes nothing: no save is
    started and none is queued. *)
Theorem submit_not_reentrant (classId : jsstring) (student : option SM.FormData)
    (path : option PE.FormData) (evs_s : list SM.Event) (evs_p : list PE.Event) :
  let ws := SM.run classId (SM.init student) evs_s in
  let wp := PE.run (PE.init path) evs_p in
  (SM.awaiting ws = if SM.isSubmitting (SM.state ws) then 1%nat else 0%nat)
  /\ (SM.isSubmitting (SM.state ws) = true ->
      SM.step classId ws SM.SubmitClick = ws)
  /\ (PE.awaiting wp = if PE.isSubmitting (PE.state wp) then 1%nat else 0%nat)
  /\ (PE.isSubmitting (PE.state wp) = true ->
      PE.step wp PE.SubmitClick = wp).
Proof.
  cbv zeta. split_all.
  - apply student_flag_tracks_save.
  - intros H. simpl. unfold SM.submitDisabled. now rewrite H.
  - apply path_flag_tracks_save.
  - intros H. simpl. unfold PE.submitDisabled. now rewrite H.
Qed.

Lemma submit_not_reentrant_witness :
  SM.step (str "C1") (SM.run (str "C1") (SM.init (Some draft_ana)) [SM.SubmitClick])
    SM.SubmitClick
  = SM.run (str "C1") (SM.init (Some draft_ana)) [SM.SubmitClick]
  /\ PE.step (PE.run (PE.init (Some draft_path)) [PE.SubmitClick]) PE.SubmitClick
     = PE.run (PE.init (Some draft_path)) [PE.SubmitClick].
Proof.
  pose proof (submit_not_reentrant (str "C1") (Some draft_ana) (Some draft_path)
                [SM.SubmitClick] [PE.SubmitClick]) as H.
  cbv zeta in H. destruct H as (_ & Hs & _ & Hp).
  split; [apply Hs | apply Hp]; reflexivity.
Defined.


(** * Further properties of the two components *)

(** ** Which drafts reach [onSave] *)

Lemma truthy_trim (s : jsstring) : truthy (trim s) = negb (blank s).
Proof.
  unfold blank. destruct (forallb isWhiteSpace s) eqn:E.
  - apply trim_nil in E. now rewrite E.
  - destruct (trim s) eqn:T; [|reflexivity].
    apply trim_nil in T. congruence.
Qed.

Lemma includes_at_existsb (s : jsstring) :
  includes s (str "@") = existsb (N.eqb 64) s.
Proof.
  apply eq_true_iff_eq. rewrite includes_at, existsb_exists. split.
  - intros H. exists 64. split; [exact H | apply N.eqb_refl].
  - intros (c & Hc & E). apply N.eqb_eq in E. now subst c.
Qed.

Lemma email_check (s : jsstring) :
  truthy s && negb (includes s (str "@")) = negb (email_accepted s).
Proof.
  destruct s as [|c s]; [reflexivity|].
  rewrite includes_at_existsb. reflexivity.
Qed.

Lemma student_submit_outcome (classId : jsstring) (w : SM.World) :
  SM.handleSubmit classId w
  = if student_valid (SM.formData (SM.state w))
    then SM.suspend
           (SM.invoke (SM.onSave (student_payload classId (SM.formData (SM.state w))))
              (SM.setError None (SM.setIsSubmitting true w)))
    else SM.setError
           (Some (str (if blank (SM.name (SM.formData (SM.state w)))
                       then "Student name is required"
                       else if email_accepted (SM.email (SM.formData (SM.state w)))
                            then "Please enter a valid parent email address"
                            else "Please enter a valid email address"))) w.
Proof.
  unfold SM.handleSubmit, student_valid.
  rewrite truthy_trim, !email_check.
  destruct (blank _), (email_accepted (SM.email _)), (email_accepted (SM.parentEmail _));
    reflexivity.
Qed.

(** X1: whether the student form saves is decided by the draft alone: a name
    with a character that is not white space and e-mail fields that are empty
    or contain an at sign; then [onSave] is called once with the draft and
    the class identifier and no error is shown, otherwise nothing is called
    and an error is shown.  The draft is never altered. *)
Theorem student_submit_decided_by_draft (classId : jsstring) (w : SM.World) :
  let fd := SM.formData (SM.state w) in
  let w' := SM.handleSubmit classId w in
  SM.calls w'
  = SM.calls w ++ (if student_valid fd
                   then [SM.onSave (student_payload classId fd)] else [])
  /\ (SM.error (SM.state w') = None <-> student_valid fd = true)
  /\ SM.formData (SM.state w') = fd.
Proof.
  cbv zeta. rewrite student_submit_outcome.
  destruct (student_valid (SM.formData (SM.state w))); simpl.
  - split_all; [reflexivity | tauto | reflexivity].
  - rewrite app_nil_r. split_all; [reflexivity | | reflexivity].
    split; discriminate.
Qed.

Lemma student_step_calls_ok (classId : jsstring) (w : SM.World) (ev : SM.Event) :
  Forall (student_call_ok classId) (SM.calls w) ->
  Forall (student_call_ok classId) (SM.calls (SM.step classId w ev)).
Proof.
  intros H. destruct ev; simpl; try exact H.
  - unfold SM.submitDisabled. destruct (SM.isSubmitting (SM.state w)); [exact H|].
    rewrite student_submit_outcome.
    destruct (student_valid (SM.formData (SM.state w))) eqn:V; simpl; [|exact H].
    apply Forall_app. split; [exact H|].
    apply Forall_singleton. simpl. split; [reflexivity|].
    destruct (SM.formData (SM.state w)); exact V.
  - apply Forall_app. split; [exact H | now apply Forall_singleton].
  - destruct (SM.awaiting w); [exact H|]. destruct r; simpl; [|exact H].
    apply Forall_app. split; [exact H | now apply Forall_singleton].
Qed.

(** X2: whatever the user does with the modal, every student ever handed to
    [onSave] carries the [classId] prop, a name that is not blank and e-mail
    fields that are empty or contain an at sign. *)
Theorem student_saves_are_valid (classId : jsstring) (student : option SM.FormData)
    (evs : list SM.Event) :
  Forall (student_call_ok classId) (SM.calls (SM.run classId (SM.init student) evs)).
Proof.
  unfold SM.run. induction evs as [|ev evs IH] using rev_ind.
  - apply Forall_nil_2.
  - rewrite fold_left_app. simpl. now apply student_step_calls_ok.
Qed.

Lemma path_submit_outcome (w : PE.World) :
  PE.handleSubmit w
  = if path_valid (PE.formData (PE.state w))
    then PE.suspend
           (PE.invoke (PE.onSave (PE.formData (PE.state w)))
              (PE.onState (PE.setError None) (PE.onState (PE.setIsSubmitting true) w)))
    else PE.onState (PE.setError (Some (str "Please fill in all required fields"))) w.
Proof.
  unfold PE.handleSubmit, path_valid. rewrite !truthy_trim, !negb_involutive.
  destruct (blank (PE.name _)), (blank (PE.theme _)); reflexivity.
Qed.

(** X3: whether the path editor saves is decided by the draft alone: name and
    theme must each contain a character that is not white space; the
    background image and the milestones play no part.  Then [onSave] is
    called once with the whole draft, otherwise nothing is called and an
    error is shown. *)
Theorem path_submit_decided_by_draft (w : PE.World) :
  let fd := PE.formData (PE.state w) in
  let w' := PE.handleSubmit w in
  PE.calls w' = PE.calls w ++ (if path_valid fd then [PE.onSave fd] else [])
  /\ (PE.error (PE.state w') = None <-> path_valid fd = true)
  /\ PE.formData (PE.state w') = fd
  /\ PE.selectedMilestone (PE.state w') = PE.selectedMilestone (PE.state w)
  /\ PE.isDragging (PE.state w') = PE.isDragging (PE.state w).
Proof.
  cbv zeta. rewrite path_submit_outcome.
  destruct (path_valid (PE.formData (PE.state w))); simpl.
  - split_all; try reflexivity. tauto.
  - rewrite app_nil_r. split_all; try reflexivity. split; discriminate.
Qed.

Lemma path_step_calls_ok (w : PE.World) (ev : PE.Event) :
  Forall path_call_ok (PE.calls w) -> Forall path_call_ok (PE.calls (PE.step w ev)).
Proof.
  intros H. destruct ev; simpl; try exact H.
  - destruct (_ !! index); exact H.
  - unfold PE.submitDisabled. destruct (PE.isSubmitting (PE.state w)); [exact H|].
    rewrite path_submit_outcome.
    destruct (path_valid (PE.formData (PE.state w))) eqn:V; simpl; [|exact H].
    apply Forall_app. split; [exact H | now apply Forall_singleton].
  - apply Forall_app. split; [exact H | now apply Forall_singleton].
  - destruct (PE.awaiting w); [exact H|]. destruct r; exact H.
Qed.

(** X4: whatever the user does with the editor, every path ever handed to
    [onSave] has a name and a theme that are not blank. *)
Theorem path_saves_are_valid (path : option PE.FormData) (evs : list PE.Event) :
  Forall path_call_ok (PE.calls (PE.run (PE.init path) evs)).
Proof.
  unfold PE.run. induction evs as [|ev evs IH] using rev_ind.
  - apply Forall_nil_2.
  - rewrite fold_left_app. simpl. now apply path_step_calls_ok.
Qed.

(** ** Clamping and percentages *)

Lemma SFcompare_antisym (a b : number) :
  SFcompare b a = option_map CompOpp (SFcompare a b).
Proof.
  destruct a as [[]|[]| |[] ma ea], b as [[]|[]| |[] mb eb]; simpl;
    try reflexivity; rewrite (Z.compare_antisym ea eb);
    destruct (ea ?= eb)%Z; simpl; try reflexivity;
    change (Pos.compare_cont Eq mb ma) with (mb ?= ma)%positive;
    change (Pos.compare_cont Eq ma mb) with (ma ?= mb)%positive;
    rewrite (Pos.compare_antisym ma mb); now destruct (ma ?= mb)%positive.
Qed.

Lemma SFleb_not_SFltb (a b : number) : SFleb a b = true -> SFltb b a = false.
Proof.
  unfold SFleb, SFltb. rewrite (SFcompare_antisym a b).
  destruct (SFcompare a b) as [[]|]; simpl; congruence.
Qed.

Lemma clamp_closed_form (v : number) :
  PE.clamp v
  = if isNaN v then S754_nan
    else if SFltb v (num 100)
         then if SFltb (num 0) v then v else num 0
         else num 100.
Proof.
  unfold PE.clamp. rewrite Math_min_100.
  destruct (isNaN v) eqn:Hv; [reflexivity|].
  rewrite Math_max_0. destruct (SFltb v (num 100)); [now rewrite Hv | reflexivity].
Qed.

(** X5: the clamp of lines 61-62 saturates: everything from 100 upwards
    (+Infinity included) becomes 100, everything from 0 downwards (-Infinity
    and -0 included) becomes +0, a value strictly between is kept, and NaN
    stays NaN. *)
Theorem clamp_saturates (v : number) :
  (SFleb (num 100) v = true -> PE.clamp v = num 100)
  /\ (SFleb v (num 0) = true -> PE.clamp v = num 0)
  /\ (SFltb (num 0) v = true -> SFltb v (num 100) = true -> PE.clamp v = v)
  /\ (isNaN v = true -> PE.clamp v = S754_nan).
Proof.
  split_all.
  - intros H. rewrite clamp_closed_form, (SFleb_not_SFltb _ _ H).
    destruct v; try reflexivity. discriminate.
  - intros H. rewrite clamp_closed_form.
    destruct v as [[]|[]| |[] m e]; try discriminate; reflexivity.
  - apply clamp_inside.
  - intros H. rewrite clamp_closed_form. now rewrite H.
Qed.

Lemma clamp_saturates_witness :
  PE.clamp (num 250) = num 100 /\ PE.clamp (num (-3)) = num 0
  /\ PE.clamp (num 42) = num 42 /\ PE.clamp S754_nan = S754_nan.
Proof.
  pose proof (clamp_saturates (num 250)) as (H1 & _).
  pose proof (clamp_saturates (num (-3))) as (_ & H2 & _).
  pose proof (clamp_saturates (num 42)) as (_ & _ & H3 & _).
  pose proof (clamp_saturates S754_nan) as (_ & _ & _ & H4).
  split_all; [apply H1 | apply H2 | apply H3 | apply H4]; reflexivity.
Defined.

(** X6: clamping twice is clamping once. *)
Theorem clamp_idempotent (v : number) : PE.clamp (PE.clamp v) = PE.clamp v.
Proof.
  rewrite (clamp_closed_form v).
  destruct (isNaN v); [reflexivity|].
  destruct (SFltb v (num 100)) eqn:H100; [|reflexivity].
  destruct (SFltb (num 0) v) eqn:H0; [|reflexivity].
  now apply clamp_inside.
Qed.

(** X7: over a canvas whose width (or height) is zero the division is by
    zero: the stored coordinate is NaN when the pointer sits exactly on the
    origin of the rectangle (or the difference is NaN already) and snaps to 0
    or 100 otherwise, according to the side of the origin the pointer is
    on. *)
Theorem percent_on_zero_extent (client origin : number) (s : bool) :
  PE.clamp (PE.percent client origin (S754_zero s))
  = match sub client origin with
    | S754_nan | S754_zero _ => S754_nan
    | S754_infinity sd | S754_finite sd _ _ => if xorb sd s then num 0 else num 100
    end.
Proof.
  unfold PE.percent. destruct (sub client origin) as [[]|[]| |[] m e], s; reflexivity.
Qed.

(** ** Where milestones can end up *)

Lemma clamp_sound (v : number) : coordinate_sound (PE.clamp v) = true.
Proof.
  unfold coordinate_sound. pose proof (clamp_range v) as H.
  destruct (isNaN v); [now rewrite H | rewrite H; apply orb_true_r].
Qed.

(** What an event does to the milestones, for a property of single
    milestones that new milestones have and that the repositioning of the
    event keeps. *)
Lemma step_milestones_Forall (P : PE.Milestone -> Prop) (w : PE.World) (ev : PE.Event) :
  (forall now, P (PE.newMilestone now)) ->
  (forall rect e m, ev = PE.CanvasMouseMove (Some rect) e -> P m ->
     P (PE.withPosition
          {| PE.x := PE.clamp (PE.percent (PE.clientX e) (PE.left rect) (PE.width rect));
             PE.y := PE.clamp (PE.percent (PE.clientY e) (PE.top rect) (PE.height rect)) |}
          m)) ->
  Forall P (PE.milestones (PE.formData (PE.state w))) ->
  Forall P (PE.milestones (PE.formData (PE.state (PE.step w ev)))).
Proof.
  intros Hnew Hmove H. destruct ev; simpl; try exact H.
  - destruct file; exact H.
  - apply Forall_app. split; [exact H | apply Forall_singleton, Hnew].
  - destruct (_ !! index); exact H.
  - unfold PE.handleMouseMove.
    destruct (PE.isDragging (PE.state w)), (PE.selectedMilestone (PE.state w)) as [sel|],
      canvas as [rect|]; try exact H.
    simpl. apply Forall_fmap. eapply Forall_impl; [exact H|].
    intros m Hm. simpl. destruct (decide (PE.id m = PE.id sel)); [|exact Hm].
    now apply (Hmove rect e).
  - unfold PE.removeSelected.
    destruct (PE.selectedMilestone (PE.state w)) as [sel|]; [|exact H].
    simpl. apply Forall_forall. intros m Hm.
    apply list_elem_of_filter in Hm. destruct Hm as [_ Hm].
    now apply (proj1 (Forall_forall _ _) H).
  - unfold PE.submitDisabled, PE.handleSubmit.
    destruct (PE.isSubmitting (PE.state w)); [exact H|].
    destruct (_ || _); exact H.
  - destruct (PE.awaiting w); [exact H|]. destruct r; exact H.
Qed.

(** X8: if the milestones of the path the editor is opened on have
    coordinates within [0,100] or NaN, then so have all milestones after any
    sequence of events: apart from NaN no coordinate ever leaves the
    interval. *)
Theorem milestones_stay_placed_or_NaN (path : option PE.FormData) (evs : list PE.Event) :
  Forall (fun m => placed_or_NaN m = true)
    (PE.milestones (PE.formData (PE.state (PE.init path)))) ->
  Forall (fun m => placed_or_NaN m = true)
    (PE.milestones (PE.formData (PE.state (PE.run (PE.init path) evs)))).
Proof.
  intros H0. unfold PE.run. induction evs as [|ev evs IH] using rev_ind; [exact H0|].
  rewrite fold_left_app. simpl. apply step_milestones_Forall; [| |exact IH].
  - intros now. reflexivity.
  - intros rect e m _ _. unfold placed_or_NaN. simpl. now rewrite !clamp_sound.
Qed.

Lemma milestones_stay_placed_or_NaN_witness :
  Forall (fun m => placed_or_NaN m = true)
    (PE.milestones (PE.formData (PE.state
       (PE.run (PE.init None)
          [PE.AddMilestoneClick 1700000000000; PE.MilestoneMouseDown 0;
           PE.CanvasMouseMove (Some canvas_empty) (pointer 0 0)])))).
Proof.
  apply (milestones_stay_placed_or_NaN None). apply Forall_nil_2.
Defined.

(** X9: if moreover every pointer move comes with finite coordinates over a
    canvas of finite, non-zero width and height, all milestones stay within
    [0,100] on both axes through any sequence of events. *)
Theorem milestones_stay_placed (path : option PE.FormData) (evs : list PE.Event) :
  Forall (fun m => placed m = true)
    (PE.milestones (PE.formData (PE.state (PE.init path)))) ->
  forallb laid_out evs = true ->
  Forall (fun m => placed m = true)
    (PE.milestones (PE.formData (PE.state (PE.run (PE.init path) evs)))).
Proof.
  intros H0. unfold PE.run. induction evs as [|ev evs IH] using rev_ind;
    [intros _; exact H0|].
  rewrite forallb_app, fold_left_app. simpl. rewrite andb_true_r.
  intros [Hevs Hev]%andb_true_iff.
  apply step_milestones_Forall; [| |now apply IH].
  - intros now. reflexivity.
  - intros rect e m -> _. unfold placed. simpl. simpl in Hev.
    repeat (apply andb_true_iff in Hev; destruct Hev as [Hev ?]).
    rewrite !clamped_percent_in_range; try assumption; try reflexivity;
      now apply negb_true_iff.
Qed.

Lemma milestones_stay_placed_witness :
  Forall (fun m => placed m = true)
    (PE.milestones (PE.formData (PE.state
       (PE.run (PE.init None)
          [PE.AddMilestoneClick 1700000000000; PE.MilestoneMouseDown 0;
           PE.CanvasMouseMove (Some canvas_400_300) (pointer 440 150);
           PE.CanvasMouseMove (Some canvas_400_300) (pointer (-20) 310)])))).
Proof.
  apply (milestones_stay_placed None); [apply Forall_nil_2 | reflexivity].
Defined.

(** X10: within a drag only the last pointer position counts: a pointer move
    over the canvas overwrites whatever an earlier pointer move did. *)
Theorem last_pointer_move_wins (canvas : option PE.DOMRect) (e1 e2 : PE.MouseEvent)
    (rect : PE.DOMRect) (s : PE.State) :
  PE.handleMouseMove (Some rect) e2 (PE.handleMouseMove canvas e1 s)
  = PE.handleMouseMove (Some rect) e2 s.
Proof.
  destruct (PE.isDragging s) eqn:Hd; [|now rewrite (mouse_move_noop canvas) by tauto].
  destruct (PE.selectedMilestone s) as [sel|] eqn:Hs;
    [|now rewrite (mouse_move_noop canvas) by tauto].
  destruct canvas as [rect1|]; [|now rewrite (mouse_move_noop None) by tauto].
  unfold PE.handleMouseMove. rewrite Hd, Hs. simpl. rewrite Hd, Hs.
  unfold PE.setFormData, PE.withMilestones. simpl. do 2 f_equal.
  rewrite <- list_fmap_compose. apply list_fmap_ext. intros i m _. simpl.
  destruct (decide (PE.id m = PE.id sel)) as [E | E]; simpl.
  - destruct (decide (PE.id m = PE.id sel)); [reflexivity | contradiction].
  - destruct (decide (PE.id m = PE.id sel)); [contradiction | reflexivity].
Qed.

(** ** Selection and removal *)

Lemma selected_mouse_move (canvas : option PE.DOMRect) (e : PE.MouseEvent) (s : PE.State) :
  PE.selectedMilestone (PE.handleMouseMove canvas e s) = PE.selectedMilestone s.
Proof.
  unfold PE.handleMouseMove.
  destruct (PE.isDragging s), (PE.selectedMilestone s) eqn:Hs, canvas;
    simpl; congruence.
Qed.

Lemma step_keeps_selected_present (w : PE.World) (ev : PE.Event) :
  (forall sel, PE.selectedMilestone (PE.state w) = Some sel ->
     PE.id sel ∈ ids (PE.state w)) ->
  forall sel, PE.selectedMilestone (PE.state (PE.step w ev)) = Some sel ->
    PE.id sel ∈ ids (PE.state (PE.step w ev)).
Proof.
  intros Inv sel. destruct ev; simpl; try apply Inv.
  - destruct file; apply Inv.
  - intros H. rewrite ids_add. apply elem_of_app. left. now apply Inv.
  - destruct (PE.milestones (PE.formData (PE.state w)) !! index) as [m|] eqn:L;
      [|apply Inv].
    simpl. intros [= <-]. unfold ids. simpl.
    apply list_elem_of_fmap_2. eapply list_elem_of_lookup_2. exact L.
  - rewrite selected_mouse_move, ids_mouse_move. apply Inv.
  - unfold PE.removeSelected.
    destruct (PE.selectedMilestone (PE.state w)) eqn:Hs; simpl; [discriminate|].
    rewrite Hs. discriminate.
  - unfold PE.submitDisabled, PE.handleSubmit.
    destruct (PE.isSubmitting (PE.state w)); [apply Inv|].
    destruct (_ || _); apply Inv.
  - destruct (PE.awaiting w); [apply Inv|]. destruct r; apply Inv.
Qed.

(** X11: whenever the editor shows a selection, a milestone with the selected
    identifier is in the collection, so the Remove Selected button, when it
    is there, always removes at least one milestone. *)
Theorem selected_milestone_is_present (path : option PE.FormData) (evs : list PE.Event)
    (sel : PE.Milestone) :
  let s := PE.state (PE.run (PE.init path) evs) in
  PE.selectedMilestone s = Some sel ->
  PE.id sel ∈ ids s
  /\ (length (PE.milestones (PE.formData (PE.removeSelected s)))
      < length (PE.milestones (PE.formData s)))%nat.
Proof.
  cbv zeta. intros Hs.
  assert (Hin : PE.id sel ∈ ids (PE.state (PE.run (PE.init path) evs))).
  { revert sel Hs. unfold PE.run.
    induction evs as [|ev evs IH] using rev_ind; [discriminate|].
    rewrite fold_left_app. simpl. now apply step_keeps_selected_present. }
  split; [exact Hin|].
  unfold PE.removeSelected. rewrite Hs. simpl.
  apply list_elem_of_fmap in Hin. destruct Hin as (m & Hid & Hm).
  apply (length_filter_lt _ _ m); [exact Hm|]. intros H. now apply H.
Qed.

Lemma selected_milestone_is_present_witness :
  PE.id (PE.newMilestone 1700000000000) ∈ ids (PE.state dragging_one)
  /\ (length (PE.milestones (PE.formData (PE.removeSelected (PE.state dragging_one))))
      < length (PE.milestones (PE.formData (PE.state dragging_one))))%nat.
Proof.
  apply (selected_milestone_is_present None
           [PE.AddMilestoneClick 1700000000000; PE.MilestoneMouseDown 0]).
  reflexivity.
Defined.

(** X12: after Remove Selected no milestone carries the removed identifier,
    and pressing it again changes nothing. *)
Theorem remove_selected_clears_identifier (s : PE.State) :
  (forall sel, PE.selectedMilestone s = Some sel ->
     PE.id sel ∉ ids (PE.removeSelected s))
  /\ PE.removeSelected (PE.removeSelected s) = PE.removeSelected s.
Proof.
  unfold PE.removeSelected. split.
  - intros sel ->. unfold ids. simpl. intros H.
    apply list_elem_of_fmap in H. destruct H as (m & Hid & Hm).
    apply list_elem_of_filter in Hm. destruct Hm as [Hne _]. now apply Hne.
  - destruct (PE.selectedMilestone s) eqn:Hs; simpl; [reflexivity | now rewrite Hs].
Qed.

Lemma remove_selected_clears_identifier_witness :
  PE.id (PE.newMilestone 1700000000000)
    ∉ ids (PE.removeSelected (PE.state same_instant_pair)).
Proof.
  apply (proj1 (remove_selected_clears_identifier (PE.state same_instant_pair))).
  reflexivity.
Defined.

(** X13: adding a milestone, picking it up and removing it gives back the
    milestones there were before, provided the identifier of the new
    milestone was not in use; if it was, the older milestones with that
    identifier are removed as well. *)
Theorem add_then_remove_round_trip (now : Z) (s : PE.State) :
  let s' := PE.removeSelected
              (PE.handleMilestoneMouseDown (PE.newMilestone now)
                 (PE.handleAddMilestone now s)) in
  PE.milestones (PE.formData s')
  = filter (fun m => PE.id m <> Date_now_toString now) (PE.milestones (PE.formData s))
  /\ (Date_now_toString now ∉ ids s ->
      PE.milestones (PE.formData s') = PE.milestones (PE.formData s)).
Proof.
  cbv zeta.
  assert (E : PE.milestones (PE.formData
                (PE.removeSelected
                   (PE.handleMilestoneMouseDown (PE.newMilestone now)
                      (PE.handleAddMilestone now s))))
              = filter (fun m => PE.id m <> Date_now_toString now)
                  (PE.milestones (PE.formData s))).
  { unfold PE.removeSelected. simpl. rewrite filter_app.
    rewrite (filter_cons_False _ (PE.newMilestone now))
      by (intros H; now apply H).
    apply app_nil_r. }
  split; [exact E|]. intros Hfresh. rewrite E. now apply filter_absent_id.
Qed.

Lemma add_then_remove_round_trip_witness :
  PE.milestones (PE.formData
    (PE.removeSelected
       (PE.handleMilestoneMouseDown (PE.newMilestone 1700000000001)
          (PE.handleAddMilestone 1700000000001 (PE.state dragging_one)))))
  = PE.milestones (PE.formData (PE.state dragging_one)).
Proof.
  apply (proj2 (add_then_remove_round_trip 1700000000001 (PE.state dragging_one))).
  vm_compute. intros H. apply list_elem_of_singleton in H. discriminate.
Defined.

Lemma filter_id_absent (ms : list PE.Milestone) (k : jsstring) :
  k ∉ PE.id <$> ms -> filter (fun m => PE.id m = k) ms = [].
Proof.
  induction ms as [|a ms IH]; [reflexivity|].
  rewrite fmap_cons, not_elem_of_cons. intros [Hne Hnot].
  rewrite filter_cons_False by congruence. now apply IH.
Qed.

Lemma filter_id_unique (ms : list PE.Milestone) (k : jsstring) :
  NoDup (PE.id <$> ms) -> k ∈ PE.id <$> ms ->
  length (filter (fun m => PE.id m = k) ms) = 1%nat.
Proof.
  induction ms as [|a ms IH].
  - intros _ H. now apply not_elem_of_nil in H.
  - rewrite fmap_cons, NoDup_cons, elem_of_cons. intros [Hfresh Hnd] Hin.
    destruct (decide (PE.id a = k)) as [<- | Hne].
    + rewrite filter_cons_True by reflexivity.
      now rewrite filter_id_absent.
    + rewrite filter_cons_False by exact Hne.
      apply IH; [exact Hnd|]. destruct Hin as [-> | Hin]; [contradiction | exact Hin].
Qed.

(** X14: the selection ring is drawn on the markers that carry the selected
    identifier: on none without a selection, and on exactly one when the
    identifiers are pairwise distinct and the selected one is among them. *)
Theorem selection_ring (s : PE.State) :
  (PE.selectedMilestone s = None -> forall m, PE.isHighlighted s m = false)
  /\ (forall sel m, PE.selectedMilestone s = Some sel ->
        (PE.isHighlighted s m = true <-> PE.id m = PE.id sel))
  /\ (forall sel, PE.selectedMilestone s = Some sel ->
        NoDup (ids s) -> PE.id sel ∈ ids s ->
        length (filter (fun m => PE.isHighlighted s m = true)
                  (PE.milestones (PE.formData s))) = 1%nat).
Proof.
  assert (Hiff : forall sel m, PE.selectedMilestone s = Some sel ->
            (PE.isHighlighted s m = true <-> PE.id m = PE.id sel)).
  { intros sel m Hs. unfold PE.isHighlighted. rewrite Hs, bool_decide_eq_true.
    split; congruence. }
  split_all.
  - intros Hs m. unfold PE.isHighlighted. now rewrite Hs.
  - exact Hiff.
  - intros sel Hs Hnd Hin.
    rewrite (list_filter_iff _ (fun m => PE.id m = PE.id sel)) by (intros m; now apply Hiff).
    now apply filter_id_unique.
Qed.

Lemma selection_ring_witness :
  length (filter (fun m => PE.isHighlighted (PE.state dragging_one) m = true)
            (PE.milestones (PE.formData (PE.state dragging_one)))) = 1%nat.
Proof.
  refine (proj2 (proj2 (selection_ring (PE.state dragging_one)))
            (PE.newMilestone 1700000000000) _ _ _).
  - reflexivity.
  - vm_compute. apply NoDup_singleton.
  - vm_compute. apply list_elem_of_singleton. reflexivity.
Defined.

(** X15: a drag starts only by pressing a marker and ends only by a
    mouse-up: no other event clears or sets the dragging flag, and once the
    button is released pointer moves do nothing. *)
Theorem dragging_flag_transitions (w : PE.World) (ev : PE.Event) :
  (ev <> PE.DocumentMouseUp -> PE.isDragging (PE.state w) = true ->
     PE.isDragging (PE.state (PE.step w ev)) = true)
  /\ ((forall i, ev <> PE.MilestoneMouseDown i) -> PE.isDragging (PE.state w) = false ->
      PE.isDragging (PE.state (PE.step w ev)) = false)
  /\ (forall canvas e,
        PE.handleMouseMove canvas e (PE.handleMouseUp (PE.state w))
        = PE.handleMouseUp (PE.state w)).
Proof.
  assert (Hsame : forall b, (b = true -> ev <> PE.DocumentMouseUp)
                            -> (b = false -> forall i, ev <> PE.MilestoneMouseDown i)
                            -> PE.isDragging (PE.state w) = b ->
                            PE.isDragging (PE.state (PE.step w ev)) = b).
  { intros b Hup Hdown Hb. destruct ev; simpl; try exact Hb.
    - destruct file; exact Hb.
    - destruct (_ !! index); [|exact Hb]. simpl.
      destruct b; [reflexivity | now destruct (Hdown eq_refl index)].
    - unfold PE.handleMouseMove.
      destruct (PE.isDragging (PE.state w)) eqn:Hd,
        (PE.selectedMilestone (PE.state w)), canvas; simpl; congruence.
    - destruct b; [now destruct (Hup eq_refl) | reflexivity].
    - unfold PE.removeSelected.
      destruct (PE.selectedMilestone (PE.state w)); exact Hb.
    - unfold PE.submitDisabled, PE.handleSubmit.
      destruct (PE.isSubmitting (PE.state w)); [exact Hb|].
      destruct (_ || _); exact Hb.
    - destruct (PE.awaiting w); [exact Hb|]. destruct r; exact Hb. }
  split_all.
  - intros Hup. apply (Hsame true); [intros _; exact Hup | discriminate].
  - intros Hdown. apply (Hsame false); [discriminate | intros _; exact Hdown].
  - intros canvas e. apply mouse_move_noop. left. reflexivity.
Qed.

Lemma dragging_flag_transitions_witness :
  PE.isDragging (PE.state (PE.step dragging_one PE.RemoveSelectedClick)) = true
  /\ PE.isDragging (PE.state (PE.step (PE.init None) (PE.AddMilestoneClick 5))) = false.
Proof.
  split.
  - apply (proj1 (dragging_flag_transitions dragging_one PE.RemoveSelectedClick));
      [discriminate | reflexivity].
  - apply (proj1 (proj2 (dragging_flag_transitions (PE.init None) (PE.AddMilestoneClick 5))));
      [discriminate | reflexivity].
Defined.

(** ** What is rendered *)

(** X16: the three statuses are told apart both by the colour and by the icon
    of the marker, and a freshly added milestone is drawn with the lock. *)
Theorem status_rendering_distinguishes (a b : PE.Status) (now : Z) :
  (PE.statusClass a = PE.statusClass b -> a = b)
  /\ (PE.statusIcon a = PE.statusIcon b -> a = b)
  /\ PE.statusIcon (PE.status (PE.newMilestone now)) = PE.Lock.
Proof. split_all; [| |reflexivity]; destruct a, b; simpl; congruence. Qed.

Lemma status_rendering_distinguishes_witness :
  PE.completed = PE.completed.
Proof.
  apply (proj1 (status_rendering_distinguishes PE.completed PE.completed 0)).
  reflexivity.
Defined.

(** X17: a refused draft always shows an error banner, and so does a rejected
    save, with one exception: a rejection by an [Error] whose message is
    empty stores the empty string, for which no banner is rendered. *)
Theorem error_banner_after_failure (classId : jsstring) (ws : SM.World) (wp : PE.World)
    (err : thrown) :
  (SM.errorBanner (SM.state (SM.handleSubmit_settled (Rejected err) ws)) = None
   <-> err = ErrorInstance [])
  /\ (PE.errorBanner (PE.state (PE.handleSubmit_settled (Rejected err) wp)) = None
      <-> err = ErrorInstance [])
  /\ (student_valid (SM.formData (SM.state ws)) = false ->
      SM.errorBanner (SM.state (SM.handleSubmit classId ws)) <> None)
  /\ (path_valid (PE.formData (PE.state wp)) = false ->
      PE.errorBanner (PE.state (PE.handleSubmit wp)) <> None).
Proof.
  split_all.
  - destruct err as [[|c m]|]; simpl; unfold SM.errorBanner; simpl;
      split; congruence.
  - destruct err as [[|c m]|]; simpl; unfold PE.errorBanner; simpl;
      split; congruence.
  - intros V. rewrite student_submit_outcome, V. unfold SM.errorBanner. simpl.
    destruct (blank _); [discriminate|].
    destruct (email_accepted _); discriminate.
  - intros V. rewrite path_submit_outcome, V. discriminate.
Qed.

Lemma error_banner_after_failure_witness :
  SM.errorBanner (SM.state (SM.handleSubmit (str "C1") (SM.init None))) <> None
  /\ PE.errorBanner (PE.state (PE.handleSubmit (PE.init None))) <> None.
Proof.
  pose proof (error_banner_after_failure (str "C1") (SM.init None) (PE.init None)
                OtherValue) as (_ & _ & Hs & Hp).
  split; [apply Hs | apply Hp]; reflexivity.
Defined.

(** ** Clicks on the modal *)


(** X19: closing the modal does not cancel a save that is outstanding: when
    the save then resolves, [onClose] is called a second time, and when it is
    rejected the error is still stored. *)
Theorem close_during_save (classId : jsstring) (w : SM.World) (err : thrown) :
  SM.awaiting w <> 0%nat ->
  SM.calls (SM.run classId w [SM.CloseClick; SM.SaveSettled Resolved])
  = SM.calls w ++ [SM.onClose; SM.onClose]
  /\ SM.calls (SM.run classId w [SM.CloseClick; SM.SaveSettled (Rejected err)])
     = SM.calls w ++ [SM.onClose]
  /\ SM.error (SM.state (SM.run classId w [SM.CloseClick; SM.SaveSettled (Rejected err)]))
     = Some (messageOr (str "Failed to save student") err).
Proof.
  intros Ha. simpl. destruct (SM.awaiting w) eqn:A; [contradiction|].
  simpl. rewrite <- app_assoc. split_all; reflexivity.
Qed.

Lemma close_during_save_witness :
  SM.calls (SM.run (str "C1") (SM.init (Some draft_ana))
              [SM.SubmitClick; SM.CloseClick; SM.SaveSettled Resolved])
  = [SM.onSave (student_payload (str "C1") draft_ana); SM.onClose; SM.onClose].
Proof.
  refine (proj1 (close_during_save (str "C1")
                   (SM.run (str "C1") (SM.init (Some draft_ana)) [SM.SubmitClick])
                   OtherValue _)).
  discriminate.
Defined.

(** ** Identifiers over a session *)

Lemma adds_at_distinct_instants_witness :
  NoDup (ids (PE.state (PE.run (PE.init None)
                 (PE.AddMilestoneClick <$> [1700000000000; 1700000000001; 1700000000002]%Z)))).
Proof.
  apply adds_at_distinct_instants.
  repeat (apply NoDup_cons; split;
          [intros H; repeat (apply elem_of_cons in H; destruct H as [H | H];
                             [discriminate|]);
           now apply not_elem_of_nil in H|]).
  apply NoDup_nil_2.
Defined.
